(** * Ollama management utility: a shallow embedding of [ollama_manager.py]
    and of the chat cell of [ollama_example.py].

    The Python code is modelled as it is written: values are Python objects
    ([pyval]), every method runs in a state-and-exception monad ([Py]) whose
    state logs what the method prints, which network calls it makes and how
    many lines it pulls from a streamed response, and what the daemon answers
    is an input ([daemon]).  Floats are IEEE binary64 values, taken from the
    standard library's [SpecFloat]. *)

From Stdlib Require Import ZArith NArith List String Ascii Bool Lia.
From Stdlib Require Import Strings.Byte.
From Stdlib Require Import Floats.SpecFloat.
From Stdlib Require Import DecimalString.
Import ListNotations.
Local Open Scope Z_scope.
Set Warnings "-register-all".

(** ** Python strings: sequences of Unicode code points *)

Definition pystr := list N.

(** An ASCII literal as a Python [str]. *)
Definition u (s : string) : pystr := map N_of_ascii (list_ascii_of_string s).

Fixpoint pystr_eqb (a b : pystr) : bool :=
  match a, b with
  | [], [] => true
  | x :: a', y :: b' => N.eqb x y && pystr_eqb a' b'
  | _, _ => false
  end.

(** [str(n)] for an [int]. *)
Definition str_of_int (z : Z) : pystr := u (NilZero.string_of_int (Z.to_int z)).

(** [_PyUnicode_IsWhitespace]: the characters [str.strip()] and [str.split()]
    treat as white space. *)
Definition is_space (c : N) : bool :=
  ((9 <=? c) && (c <=? 13) || (28 <=? c) && (c <=? 32)
   || (c =? 133) || (c =? 160) || (c =? 5760)
   || (8192 <=? c) && (c <=? 8202)
   || (c =? 8232) || (c =? 8233) || (c =? 8239) || (c =? 8287)
   || (c =? 12288))%N.

Fixpoint lstrip (s : pystr) : pystr :=
  match s with
  | c :: s' => if is_space c then lstrip s' else s
  | [] => []
  end.

(** [s.strip()] *)
Definition str_strip (s : pystr) : pystr := rev (lstrip (rev (lstrip s))).

(** [s.split()]: the maximal runs of non-space characters, in order.
    [cur] is the word being read, reversed. *)
Fixpoint split_from (cur : pystr) (s : pystr) : list pystr :=
  match s with
  | [] => match cur with [] => [] | _ => [rev cur] end
  | c :: s' =>
    if is_space c
    then match cur with [] => split_from [] s' | _ => rev cur :: split_from [] s' end
    else split_from (c :: cur) s'
  end.

Definition str_split (s : pystr) : list pystr := split_from [] s.

(** [needle in hay] for two strings: substring test. *)
Fixpoint starts_with (p s : pystr) : bool :=
  match p, s with
  | [], _ => true
  | x :: p', y :: s' => N.eqb x y && starts_with p' s'
  | _ :: _, [] => false
  end.

Fixpoint is_substring (p s : pystr) : bool :=
  starts_with p s || match s with [] => false | _ :: s' => is_substring p s' end.

(** ** Floats: IEEE 754 binary64 *)

Definition float_prec : Z := 53.
Definition float_emax : Z := 1024.

Definition float_div := SFdiv float_prec float_emax.
Definition float_mul := SFmul float_prec float_emax.
Definition float_sub := SFsub float_prec float_emax.

(** [x > 0.0] *)
Definition float_gt0 (x : spec_float) : bool := SFltb (S754_zero false) x.

Definition float_is_zero (x : spec_float) : bool :=
  match x with S754_zero _ => true | _ => false end.

Definition float_is_inf (x : spec_float) : bool :=
  match x with S754_infinity _ => true | _ => false end.

(** The integer [z] as an unrounded mantissa with exponent 0. *)
Definition exact_int (z : Z) : spec_float :=
  match z with
  | Z0 => S754_zero false
  | Zpos p => S754_finite false p 0
  | Zneg p => S754_finite true p 0
  end.

(** [float(z)], before the overflow check: round to nearest, ties to even. *)
Definition round_int (z : Z) : spec_float :=
  binary_normalize float_prec float_emax z 0 false.

Definition float_100 : spec_float := round_int 100.

(** ** Python objects and exceptions *)

Inductive pyval :=
| PNone
| PBool (b : bool)
| PInt (z : Z)
| PFloat (f : spec_float)
| PStr (s : pystr)
| PList (l : list pyval)
| PDict (d : list (pystr * pyval))
| PObj (id : nat).   (* an opaque object, such as a response generator *)

(** An exception: the classes it is an instance of (its MRO) and [str(e)].
    Only instances of [Exception] are modelled, so the MRO leaves [Exception]
    itself implicit; [KeyboardInterrupt] and [SystemExit], which no handler of
    this code catches, are outside the model. *)
Record exn := { exn_mro : list string; exn_msg : pystr }.

Definition isinstance (e : exn) (c : string) : bool :=
  existsb (String.eqb c) (exn_mro e).

Definition ZeroDivisionError (msg : string) : exn :=
  {| exn_mro := ["ZeroDivisionError"; "ArithmeticError"]%string;
     exn_msg := u msg |}.
Definition OverflowError (msg : string) : exn :=
  {| exn_mro := ["OverflowError"; "ArithmeticError"]%string;
     exn_msg := u msg |}.
Definition TypeError (msg : string) : exn :=
  {| exn_mro := ["TypeError"]%string; exn_msg := u msg |}.
Definition AttributeError (msg : string) : exn :=
  {| exn_mro := ["AttributeError"]%string; exn_msg := u msg |}.
(** [str(KeyError(k))] is the [repr] of the key; the keys looked up by the
    code are plain ASCII words. *)
Definition KeyError (k : pystr) : exn :=
  {| exn_mro := ["KeyError"; "LookupError"]%string;
     exn_msg := u "'" ++ k ++ u "'" |}.
(** The two decoding errors carry the kind of the failure only: [str(e)] of
    the interpreter goes on with the place of the failure (line, column and
    character for JSON; the byte, its position and the reason for UTF-8),
    which the decoders below do not compute.  Statements about a line that
    fails to decode therefore say that the result is an Error and leave its
    text open. *)
Definition JSONDecodeError (msg : string) : exn :=
  {| exn_mro := ["JSONDecodeError"; "ValueError"]%string;
     exn_msg := u msg |}.
Definition UnicodeDecodeError : exn :=
  {| exn_mro := ["UnicodeDecodeError"; "UnicodeError"; "ValueError"]%string;
     exn_msg := u "'utf-8' codec can't decode bytes" |}.
(** What evaluating an expression does: a value, or a raised exception. *)
Inductive outcome (A : Type) :=
| Ret (a : A)
| Raise (e : exn).
Arguments Ret {A} a.
Arguments Raise {A} e.

(** *** Dictionaries: insertion-ordered, keyed by strings *)

Fixpoint dict_get (d : list (pystr * pyval)) (k : pystr) : option pyval :=
  match d with
  | [] => None
  | (k', v) :: d' => if pystr_eqb k' k then Some v else dict_get d' k
  end.

(** [d[k] = v]: an existing key keeps its place. *)
Fixpoint dict_set (d : list (pystr * pyval)) (k : pystr) (v : pyval)
  : list (pystr * pyval) :=
  match d with
  | [] => [(k, v)]
  | (k', v') :: d' =>
    if pystr_eqb k' k then (k', v) :: d' else (k', v') :: dict_set d' k v
  end.

(** [dict(pairs)] *)
Definition dict_of_pairs (ps : list (pystr * pyval)) : list (pystr * pyval) :=
  fold_left (fun d kv => dict_set d (fst kv) (snd kv)) ps [].

(** [k in v] for a string [k]. *)
Definition py_contains (k : pystr) (v : pyval) : outcome bool :=
  match v with
  | PDict d => Ret (match dict_get d k with Some _ => true | None => false end)
  | PList l =>
    Ret (existsb (fun x => match x with PStr s => pystr_eqb s k | _ => false end) l)
  | PStr s => Ret (is_substring k s)
  | _ => Raise (TypeError "argument is not iterable")
  end.

(** [v[k]] for a string [k]. *)
Definition py_getitem (v : pyval) (k : pystr) : outcome pyval :=
  match v with
  | PDict d => match dict_get d k with Some x => Ret x | None => Raise (KeyError k) end
  | PList _ => Raise (TypeError "list indices must be integers or slices, not str")
  | PStr _ => Raise (TypeError "string indices must be integers")
  | _ => Raise (TypeError "object is not subscriptable")
  end.

(** [v.get(k, default)] *)
Definition py_get (v : pyval) (k : pystr) (default : pyval) : outcome pyval :=
  match v with
  | PDict d => Ret (match dict_get d k with Some x => x | None => default end)
  | _ => Raise (AttributeError "object has no attribute 'get'")
  end.

(** [len(v)] *)
Definition py_len (v : pyval) : outcome Z :=
  match v with
  | PStr s => Ret (Z.of_nat (List.length s))
  | PList l => Ret (Z.of_nat (List.length l))
  | PDict d => Ret (Z.of_nat (List.length d))
  | _ => Raise (TypeError "object has no len()")
  end.

(** [v.split()] *)
Definition py_split (v : pyval) : outcome pyval :=
  match v with
  | PStr s => Ret (PList (map PStr (str_split s)))
  | _ => Raise (AttributeError "object has no attribute 'split'")
  end.

(** [for x in v]: the items the iteration yields. *)
Definition py_iter (v : pyval) : outcome (list pyval) :=
  match v with
  | PList l => Ret l
  | PDict d => Ret (map (fun kv => PStr (fst kv)) d)
  | PStr s => Ret (map (fun c => PStr [c]) s)
  | _ => Raise (TypeError "object is not iterable")
  end.

(** [bool(v)], as [if v:] and [not v] use it. *)
Definition py_truthy (v : pyval) : bool :=
  match v with
  | PNone => false
  | PBool b => b
  | PInt z => negb (z =? 0)
  | PFloat f => negb (float_is_zero f)
  | PStr s => match s with [] => false | _ => true end
  | PList l => match l with [] => false | _ => true end
  | PDict d => match d with [] => false | _ => true end
  | PObj _ => true
  end.

(** *** Arithmetic *)

(** A number as the interpreter sees it: [bool] is a subclass of [int]. *)
Inductive number := NInt (z : Z) | NFloat (f : spec_float).

Definition as_number (v : pyval) : option number :=
  match v with
  | PBool b => Some (NInt (if b then 1 else 0))
  | PInt z => Some (NInt z)
  | PFloat f => Some (NFloat f)
  | _ => None
  end.

(** [float(z)]: raises when the rounded value is out of range. *)
Definition int_to_float (z : Z) : outcome spec_float :=
  let f := round_int z in
  if float_is_inf f then Raise (OverflowError "int too large to convert to float")
  else Ret f.

(** [a / b] on two ints: the correctly rounded quotient. *)
Definition int_true_divide (a b : Z) : outcome spec_float :=
  if b =? 0 then Raise (ZeroDivisionError "division by zero")
  else if a =? 0 then Ret (S754_zero (b <? 0))
  else
    let q := float_div (exact_int a) (exact_int b) in
    if float_is_inf q
    then Raise (OverflowError "integer division result too large for a float")
    else Ret q.

(** [x / y] on two floats. *)
Definition float_true_divide (x y : spec_float) : outcome spec_float :=
  if float_is_zero y then Raise (ZeroDivisionError "float division by zero")
  else Ret (float_div x y).

(** [a / b] *)
Definition py_truediv (a b : pyval) : outcome spec_float :=
  match as_number a, as_number b with
  | Some (NInt x), Some (NInt y) => int_true_divide x y
  | Some (NInt x), Some (NFloat y) =>
    match int_to_float x with
    | Ret fx => float_true_divide fx y
    | Raise e => Raise e
    end
  | Some (NFloat x), Some (NInt y) =>
    match int_to_float y with
    | Ret fy => float_true_divide x fy
    | Raise e => Raise e
    end
  | Some (NFloat x), Some (NFloat y) => float_true_divide x y
  | _, _ => Raise (TypeError "unsupported operand type(s) for /")
  end.

(** ** [bytes.decode('utf-8')] *)

Definition bytes := list byte.

(** A bytes literal. *)
Definition b (s : string) : bytes := list_byte_of_string s.

Definition is_cont (x : N) : bool := ((128 <=? x) && (x <=? 191))%N.

(** The strict decoder: shortest forms only, no surrogates, nothing above
    U+10FFFF.  [None] is [UnicodeDecodeError]. *)
Fixpoint utf8_decode (l : list N) : option pystr :=
  let cons c r := match r with Some s => Some (c :: s) | None => None end in
  (match l with
   | [] => Some []
   | x :: l1 =>
     if x <? 128 then cons x (utf8_decode l1)
     else if (194 <=? x) && (x <=? 223) then
       match l1 with
       | y :: l2 =>
         if is_cont y then cons ((x - 192) * 64 + (y - 128)) (utf8_decode l2)
         else None
       | _ => None
       end
     else if (224 <=? x) && (x <=? 239) then
       match l1 with
       | y :: z :: l3 =>
         if is_cont y && is_cont z
            && negb ((x =? 224) && (y <? 160))
            && negb ((x =? 237) && (160 <=? y))
         then cons ((x - 224) * 4096 + (y - 128) * 64 + (z - 128)) (utf8_decode l3)
         else None
       | _ => None
       end
     else if (240 <=? x) && (x <=? 244) then
       match l1 with
       | y :: z :: w :: l4 =>
         if is_cont y && is_cont z && is_cont w
            && negb ((x =? 240) && (y <? 144))
            && negb ((x =? 244) && (144 <=? y))
         then cons ((x - 240) * 262144 + (y - 128) * 4096 + (z - 128) * 64 + (w - 128))
                   (utf8_decode l4)
         else None
       | _ => None
       end
     else None
   end)%N.

Definition decode (line : bytes) : outcome pystr :=
  match utf8_decode (map Byte.to_N line) with
  | Some s => Ret s
  | None => Raise UnicodeDecodeError
  end.

(** ** [json.loads]

    The decoder of the [json] module (the scanner, [scanstring], the number
    pattern and the object and array loops), on a string of code points.
    [None] stands for [JSONDecodeError].  The recursion is bounded by the
    length of the text, which no value can exceed in nesting or in items. *)

Module Json.

Local Open Scope N_scope.

Definition is_ws (c : N) : bool :=
  (c =? 32) || (c =? 9) || (c =? 10) || (c =? 13).

Fixpoint skip_ws (l : list N) : list N :=
  match l with
  | c :: l' => if is_ws c then skip_ws l' else l
  | [] => []
  end.

Definition is_digit (c : N) : bool := (48 <=? c) && (c <=? 57).

Definition hexval (c : N) : option N :=
  if is_digit c then Some (c - 48)
  else if (97 <=? c) && (c <=? 102) then Some (c - 87)
  else if (65 <=? c) && (c <=? 70) then Some (c - 55)
  else None.

Definition hex4 (a b c d : N) : option N :=
  match hexval a, hexval b, hexval c, hexval d with
  | Some x, Some y, Some z, Some w => Some (((x * 16 + y) * 16 + z) * 16 + w)
  | _, _, _, _ => None
  end.

Definition is_high (c : N) : bool := (55296 <=? c) && (c <=? 56319).
Definition is_low (c : N) : bool := (56320 <=? c) && (c <=? 57343).

(** The character a one-letter escape stands for. *)
Definition unescape (e : N) : option N :=
  if e =? 34 then Some 34        (* quote *)
  else if e =? 92 then Some 92   (* backslash *)
  else if e =? 47 then Some 47   (* slash *)
  else if e =? 98 then Some 8    (* backspace *)
  else if e =? 102 then Some 12  (* form feed *)
  else if e =? 110 then Some 10  (* line feed *)
  else if e =? 114 then Some 13  (* carriage return *)
  else if e =? 116 then Some 9   (* tab *)
  else None.

(** [scanstring], strict: the text after the opening quote.  [pend] is a high
    surrogate read from a [\u] escape, waiting for its low half. *)
Fixpoint scanstring (pend : option N) (l : list N) : option (pystr * list N) :=
  let flush s := match pend with Some h => h :: s | None => s end in
  let emit (c : list N) r :=
    match r with Some (s, rest) => Some (flush (c ++ s), rest) | None => None end in
  match l with
  | [] => None
  | c :: l1 =>
    if c =? 34 then Some (flush [], l1)
    else if c =? 92 then
      match l1 with
      | [] => None
      | e :: l2 =>
        if e =? 117 then
          match l2 with
          | h1 :: h2 :: h3 :: h4 :: l6 =>
            match hex4 h1 h2 h3 h4 with
            | Some uni =>
              match pend with
              | Some h =>
                if is_low uni then
                  match scanstring None l6 with
                  | Some (s, rest) =>
                    Some (65536 + ((h - 55296) * 1024 + (uni - 56320)) :: s, rest)
                  | None => None
                  end
                else if is_high uni then
                  match scanstring (Some uni) l6 with
                  | Some (s, rest) => Some (h :: s, rest)
                  | None => None
                  end
                else emit [uni] (scanstring None l6)
              | None =>
                if is_high uni then scanstring (Some uni) l6
                else emit [uni] (scanstring None l6)
              end
            | None => None
            end
          | _ => None
          end
        else
          match unescape e with
          | Some c' => emit [c'] (scanstring None l2)
          | None => None
          end
      end
    else if c <? 32 then None
    else emit [c] (scanstring None l1)
  end.

(** The longest run of digits at the head of the text. *)
Fixpoint take_digits (l : list N) : list N * list N :=
  match l with
  | c :: l' =>
    if is_digit c then let (ds, r) := take_digits l' in (c :: ds, r) else ([], l)
  | [] => ([], [])
  end.

Definition digits_value (ds : list N) : Z :=
  fold_left (fun acc c => (acc * 10 + Z.of_N (c - 48))%Z) ds 0%Z.

(** [float(text)] for the decimal [m * 10^e10], [m >= 0], with sign [neg]:
    one rounding, to nearest, ties to even; out of range gives an infinity. *)
Definition float_of_decimal (neg : bool) (m : Z) (e10 : Z) : spec_float :=
  match m with
  | Zpos p =>
    if (0 <=? e10)%Z
    then binary_normalize float_prec float_emax
           (if neg then - (m * 10 ^ e10) else m * 10 ^ e10)%Z 0%Z false
    else float_div (S754_finite neg p 0) (exact_int (10 ^ (- e10))%Z)
  | _ => S754_zero neg
  end.

(** The number pattern: an optional minus sign, then a lone zero or a
    nonzero digit followed by digits; then optionally a dot and at least one
    digit; then optionally e or E, an optional sign and at least one digit.
    An int when it has neither fraction nor exponent, a float otherwise. *)
Definition match_number (l : list N) : option (pyval * list N) :=
  let (neg, l0) :=
    match l with
    | c :: l' => if c =? 45 then (true, l') else (false, l)
    | [] => (false, l)
    end in
  let int_part :=
    match l0 with
    | c :: l' =>
      if c =? 48 then Some ([c], l')
      else if is_digit c then Some (take_digits l0)
      else None
    | [] => None
    end in
  match int_part with
  | None => None
  | Some (ids, l1) =>
    let (fds, l2) :=
      match l1 with
      | c :: l' =>
        if c =? 46 then
          match take_digits l' with
          | ([], _) => ([], l1)
          | (ds, r) => (ds, r)
          end
        else ([], l1)
      | [] => ([], l1)
      end in
    let '(has_exp, ex, l3) :=
      match l2 with
      | c :: l' =>
        if (c =? 101) || (c =? 69) then
          let (eneg, l'') :=
            match l' with
            | s :: r =>
              if s =? 45 then (true, r) else if s =? 43 then (false, r) else (false, l')
            | [] => (false, l')
            end in
          match take_digits l'' with
          | ([], _) => (false, 0%Z, l2)
          | (ds, r) => (true, (if eneg then - digits_value ds else digits_value ds)%Z, r)
          end
        else (false, 0%Z, l2)
      | [] => (false, 0%Z, l2)
      end in
    match fds, has_exp with
    | [], false =>
      Some (PInt (if neg then - digits_value ids else digits_value ids)%Z, l3)
    | _, _ =>
      Some (PFloat (float_of_decimal neg (digits_value (ids ++ fds))
                      (ex - Z.of_nat (List.length fds))%Z), l3)
    end
  end.

(** [text.startswith(word)], giving the rest of the text. *)
Fixpoint eat (word l : list N) : option (list N) :=
  match word, l with
  | [], _ => Some l
  | x :: word', y :: l' => if x =? y then eat word' l' else None
  | _ :: _, [] => None
  end.

Fixpoint scan_once (fuel : nat) (l : list N) {struct fuel} : option (pyval * list N) :=
  match fuel with
  | O => None
  | S fuel' =>
    match l with
    | [] => None
    | c :: l1 =>
      if c =? 34 then
        match scanstring None l1 with
        | Some (s, r) => Some (PStr s, r)
        | None => None
        end
      else if c =? 123 then
        match skip_ws l1 with
        | x :: r =>
          if x =? 125 then Some (PDict [], r)
          else if x =? 34 then JSONObject fuel' r []
          else None
        | [] => None
        end
      else if c =? 91 then
        match skip_ws l1 with
        | x :: r =>
          if x =? 93 then Some (PList [], r)
          else JSONArray fuel' (x :: r) []
        | [] => None
        end
      else
        match eat (u "null") l, eat (u "true") l, eat (u "false") l with
        | Some r, _, _ => Some (PNone, r)
        | _, Some r, _ => Some (PBool true, r)
        | _, _, Some r => Some (PBool false, r)
        | None, None, None =>
          match match_number l with
          | Some res => Some res
          | None =>
            match eat (u "NaN") l, eat (u "Infinity") l, eat (u "-Infinity") l with
            | Some r, _, _ => Some (PFloat S754_nan, r)
            | _, Some r, _ => Some (PFloat (S754_infinity false), r)
            | _, _, Some r => Some (PFloat (S754_infinity true), r)
            | None, None, None => None
            end
          end
        end
    end
  end

(** The object loop: [l] starts after the opening quote of a key; [acc] holds
    the pairs read so far, last first. *)
with JSONObject (fuel : nat) (l : list N) (acc : list (pystr * pyval)) {struct fuel}
  : option (pyval * list N) :=
  match fuel with
  | O => None
  | S fuel' =>
    match scanstring None l with
    | None => None
    | Some (key, r) =>
      match skip_ws r with
      | colon :: r1 =>
        if colon =? 58 then
          match scan_once fuel' (skip_ws r1) with
          | None => None
          | Some (v, r2) =>
            match skip_ws r2 with
            | x :: r3 =>
              if x =? 125 then Some (PDict (dict_of_pairs (rev ((key, v) :: acc))), r3)
              else if x =? 44 then
                match skip_ws r3 with
                | q :: r4 => if q =? 34 then JSONObject fuel' r4 ((key, v) :: acc) else None
                | [] => None
                end
              else None
            | [] => None
            end
          end
        else None
      | [] => None
      end
    end
  end

(** The array loop: [l] starts at an item. *)
with JSONArray (fuel : nat) (l : list N) (acc : list pyval) {struct fuel}
  : option (pyval * list N) :=
  match fuel with
  | O => None
  | S fuel' =>
    match scan_once fuel' l with
    | None => None
    | Some (v, r) =>
      match skip_ws r with
      | x :: r1 =>
        if x =? 93 then Some (PList (rev (v :: acc)), r1)
        else if x =? 44 then JSONArray fuel' (skip_ws r1) (v :: acc)
        else None
      | [] => None
      end
    end
  end.

(** [json.loads(s)] *)
Definition loads (s : pystr) : outcome pyval :=
  match s with
  | 65279 :: _ => Raise (JSONDecodeError "Unexpected UTF-8 BOM (decode using utf-8-sig)")
  | _ =>
    match scan_once (2 * List.length s + 2) (skip_ws s) with
    | None => Raise (JSONDecodeError "Expecting value")
    | Some (v, r) =>
      match skip_ws r with
      | [] => Ret v
      | _ :: _ => Raise (JSONDecodeError "Extra data")
      end
    end
  end.

End Json.

(** ** The outside world

    What the transport and the daemon answer is an input of every method;
    what a method does to the outside is logged in the [world]. *)

(** A call of [requests.get], [requests.post] or [requests.delete]. *)
Record request := {
  req_method : string;
  req_url : pystr;
  req_json : option pyval;
  req_timeout : option Z;
  req_stream : bool
}.

(** A [requests.Response]: its status code, what [response.json()] does, the
    lines [response.iter_lines()] yields, and the exception that ends the
    stream when the connection breaks before the body is complete. *)
Record response := {
  status_code : Z;
  json : outcome pyval;
  iter_lines : list bytes;
  stream_error : option exn
}.

(** A call of [chat] on the ollama client: the host the client is bound to
    ([None] for the module-level default client) and the arguments. *)
Record chat_request := {
  chat_host : option pystr;
  chat_model : pystr;
  chat_messages : pyval;
  chat_stream : bool
}.

Inductive call :=
| HttpCall (r : request)
| ChatCall (c : chat_request).

Record daemon := {
  http : request -> outcome response;
  ollama_chat : chat_request -> outcome pyval;
  clock : nat -> spec_float          (* the n-th reading of [time.time()] *)
}.

Inductive event :=
| Print (text : pystr)             (* [print(text)] *)
| PrintStatus (v : pyval)          (* [print(f"Status: {v}")] *)
| PrintProgress (p : spec_float)   (* [print(f"Progress: {p:.1f}%")] *)
| StatusUpdate (text : pystr).     (* [mo.status.update(text)] *)

Record world := {
  out : list event;        (* what was printed or shown, oldest first *)
  calls : list call;       (* the network calls made, oldest first *)
  lines_read : nat;        (* lines pulled from response streams *)
  clock_reads : nat        (* readings of the clock taken *)
}.

Definition fresh : world :=
  {| out := []; calls := []; lines_read := 0; clock_reads := 0 |}.

(** ** The monad of Python statements: state and exceptions *)

Definition Py (A : Type) : Type := world -> outcome A * world.

Definition ret {A} (a : A) : Py A := fun w => (Ret a, w).
Definition raise {A} (e : exn) : Py A := fun w => (Raise e, w).
Definition lift {A} (o : outcome A) : Py A := fun w => (o, w).

Definition bind {A B} (m : Py A) (k : A -> Py B) : Py B :=
  fun w =>
    match m w with
    | (Ret a, w') => k a w'
    | (Raise e, w') => (Raise e, w')
    end.

(** [try: body  except Exception as e: handler(e)] *)
Definition try_except {A} (body : Py A) (handler : exn -> Py A) : Py A :=
  fun w =>
    match body w with
    | (Ret a, w') => (Ret a, w')
    | (Raise e, w') => handler e w'
    end.

Declare Scope py_scope.
Delimit Scope py_scope with py.
Notation "x <- m ;; k" := (bind m (fun x => k))
  (at level 61, m at next level, right associativity) : py_scope.
Notation "m ;;; k" := (bind m (fun _ => k))
  (at level 61, right associativity) : py_scope.
Local Open Scope py_scope.

Definition emit (e : event) : Py unit :=
  fun w => (Ret tt, {| out := out w ++ [e]; calls := calls w;
                       lines_read := lines_read w; clock_reads := clock_reads w |}).

Definition log_call (c : call) : Py unit :=
  fun w => (Ret tt, {| out := out w; calls := calls w ++ [c];
                       lines_read := lines_read w; clock_reads := clock_reads w |}).

Definition pull_line : Py unit :=
  fun w => (Ret tt, {| out := out w; calls := calls w;
                       lines_read := S (lines_read w); clock_reads := clock_reads w |}).

(** [for line in response.iter_lines(): body(line)] *)
Fixpoint for_lines (lines : list bytes) (stop : option exn) (body : bytes -> Py unit)
  : Py unit :=
  match lines with
  | [] => match stop with Some e => raise e | None => ret tt end
  | line :: rest => pull_line ;;; body line ;;; for_lines rest stop body
  end.

(** [[f(x) for x in xs]] *)
Fixpoint comprehension (f : pyval -> outcome pyval) (xs : list pyval)
  : outcome (list pyval) :=
  match xs with
  | [] => Ret []
  | x :: xs' =>
    match f x with
    | Raise e => Raise e
    | Ret y =>
      match comprehension f xs' with
      | Raise e => Raise e
      | Ret ys => Ret (y :: ys)
      end
    end
  end.

(** The two result shapes every method builds by hand. *)
Definition error_result (message : pystr) : pyval :=
  PDict [(u "status", PStr (u "error")); (u "message", PStr message)].

Definition success_message (message : pystr) : pyval :=
  PDict [(u "status", PStr (u "success")); (u "message", PStr message)].

(** ** [class OllamaManager] *)

Module OllamaManager.

Section Methods.

Variable d : daemon.
Variable host : pystr.     (* [self.host] *)

Definition requests_call (r : request) : Py response :=
  log_call (HttpCall r) ;;; lift (http d r).

(** [requests.get(f"{self.host}/api/tags", timeout=...)] *)
Definition tags_request (timeout : Z) : request :=
  {| req_method := "GET"; req_url := host ++ u "/api/tags"; req_json := None;
     req_timeout := Some timeout; req_stream := false |}.

(** [requests.post(f"{self.host}/api/pull", json={'name': model_name},
    stream=True, timeout=300)] *)
Definition pull_request (model_name : pystr) : request :=
  {| req_method := "POST"; req_url := host ++ u "/api/pull";
     req_json := Some (PDict [(u "name", PStr model_name)]);
     req_timeout := Some 300; req_stream := true |}.

(** [requests.delete(f"{self.host}/api/delete", json={'name': model_name})] *)
Definition delete_request (model_name : pystr) : request :=
  {| req_method := "DELETE"; req_url := host ++ u "/api/delete";
     req_json := Some (PDict [(u "name", PStr model_name)]);
     req_timeout := None; req_stream := false |}.

Definition user_message (message : pystr) : pyval :=
  PList [PDict [(u "role", PStr (u "user")); (u "content", PStr message)]].

(** [self.client.chat(model=model, messages=[{'role': 'user', 'content':
    message}], stream=stream)] *)
Definition chat_request_of (model message : pystr) (stream : bool) : chat_request :=
  {| chat_host := Some host; chat_model := model;
     chat_messages := user_message message; chat_stream := stream |}.

Definition client_chat (c : chat_request) : Py pyval :=
  log_call (ChatCall c) ;;; lift (ollama_chat d c).

(** [time.time()] *)
Definition time_time : Py spec_float :=
  fun w => (Ret (clock d (clock_reads w)),
            {| out := out w; calls := calls w; lines_read := lines_read w;
               clock_reads := S (clock_reads w) |}).

Definition check_connection : Py pyval :=
  try_except
    (response <- requests_call (tags_request 5) ;;
     if status_code response =? 200 then
       body <- lift (json response) ;;
       models <- lift (py_get body (u "models") (PList [])) ;;
       count <- lift (py_len models) ;;
       items <- lift (py_iter models) ;;
       names <- lift (comprehension (fun model => py_getitem model (u "name")) items) ;;
       ret (PDict [(u "status", PStr (u "connected"));
                   (u "models_count", PInt count);
                   (u "models", PList names)])
     else
       ret (error_result (u "HTTP " ++ str_of_int (status_code response))))
    (fun e =>
       if isinstance e "requests.exceptions.ConnectionError"
       then ret (error_result (u "Connection refused - Ollama not running"))
       else if isinstance e "requests.exceptions.Timeout"
       then ret (error_result (u "Connection timeout"))
       else ret (error_result (exn_msg e))).

Definition list_models : Py pyval :=
  try_except
    (response <- requests_call (tags_request 10) ;;
     if status_code response =? 200 then
       body <- lift (json response) ;;
       lift (py_get body (u "models") (PList []))
     else ret (PList []))
    (fun e =>
       emit (Print (u "Error listing models: " ++ exn_msg e)) ;;;
       ret (PList [])).

(** The body of the loop over the lines of the pull stream. *)
Definition install_line (line : bytes) : Py unit :=
  match line with
  | [] => ret tt
  | _ :: _ =>
    text <- lift (decode line) ;;
    data <- lift (Json.loads text) ;;
    has_status <- lift (py_contains (u "status") data) ;;
    (if has_status : bool then
       status <- lift (py_getitem data (u "status")) ;;
       emit (PrintStatus status)
     else ret tt) ;;;
    has_completed <- lift (py_contains (u "completed") data) ;;
    has_both <- (if has_completed : bool
                 then lift (py_contains (u "total") data) else ret false) ;;
    if has_both : bool then
      completed <- lift (py_getitem data (u "completed")) ;;
      total <- lift (py_getitem data (u "total")) ;;
      ratio <- lift (py_truediv completed total) ;;
      emit (PrintProgress (float_mul ratio float_100))
    else ret tt
  end.

Definition install_model (model_name : pystr) : Py pyval :=
  try_except
    (emit (Print (u "Installing " ++ model_name
                    ++ u "... This may take several minutes.")) ;;;
     response <- requests_call (pull_request model_name) ;;
     if status_code response =? 200 then
       for_lines (iter_lines response) (stream_error response) install_line ;;;
       ret (success_message (u "Successfully installed " ++ model_name))
     else
       ret (error_result (u "HTTP " ++ str_of_int (status_code response))))
    (fun e => ret (error_result (exn_msg e))).

Definition remove_model (model_name : pystr) : Py pyval :=
  try_except
    (response <- requests_call (delete_request model_name) ;;
     if status_code response =? 200 then
       ret (success_message (u "Successfully removed " ++ model_name))
     else
       ret (error_result (u "HTTP " ++ str_of_int (status_code response))))
    (fun e => ret (error_result (exn_msg e))).

Definition chat (model message : pystr) (stream : bool) : Py pyval :=
  try_except
    (response <- client_chat (chat_request_of model message stream) ;;
     if stream then
       ret (PDict [(u "status", PStr (u "success")); (u "stream", response)])
     else
       msg <- lift (py_getitem response (u "message")) ;;
       content <- lift (py_getitem msg (u "content")) ;;
       ret (PDict [(u "status", PStr (u "success")); (u "response", content)]))
    (fun e => ret (error_result (exn_msg e))).

(** [v == 'success'] *)
Definition is_success (v : pyval) : bool :=
  match v with PStr s => pystr_eqb s (u "success") | _ => false end.

Definition default_prompt : pystr := u "Hello, how are you?".

Definition benchmark_model (model test_prompt : pystr) : Py pyval :=
  try_except
    (start_time <- time_time ;;
     response <- chat model test_prompt false ;;
     end_time <- time_time ;;
     status <- lift (py_getitem response (u "status")) ;;
     if is_success status then
       response_text <- lift (py_getitem response (u "response")) ;;
       let response_time := float_sub end_time start_time in
       words <- lift (py_split response_text) ;;
       word_count <- lift (py_len words) ;;
       response_length <- lift (py_len response_text) ;;
       words_per_second <-
         (if float_gt0 response_time
          then ratio <- lift (py_truediv (PInt word_count) (PFloat response_time)) ;;
               ret (PFloat ratio)
          else ret (PInt 0)) ;;
       ret (PDict [(u "status", PStr (u "success"));
                   (u "model", PStr model);
                   (u "response_time", PFloat response_time);
                   (u "response_length", PInt response_length);
                   (u "word_count", PInt word_count);
                   (u "words_per_second", words_per_second)])
     else ret response)
    (fun e => ret (error_result (exn_msg e))).

End Methods.

End OllamaManager.

(** ** The chat cell of the notebook, [ollama_example.py] *)

Module Notebook.

Section Cells.

Variable d : daemon.

(** [ollama.chat(model=model, messages=[{'role': 'user', 'content':
    message}])], on the default client. *)
Definition default_chat_request (model message : pystr) : chat_request :=
  {| chat_host := None; chat_model := model;
     chat_messages := OllamaManager.user_message message; chat_stream := false |}.

Definition ollama_chat_default (c : chat_request) : Py pyval :=
  log_call (ChatCall c) ;;; lift (ollama_chat d c).

Definition chat_with_ollama (model message : pystr) : Py pyval :=
  match str_strip message with
  | [] => ret (PStr (u "Please enter a message."))
  | _ :: _ =>
    try_except
      (emit (StatusUpdate (u "Generating response...")) ;;;
       response <- ollama_chat_default (default_chat_request model message) ;;
       emit (StatusUpdate (u "Response generated!")) ;;;
       msg <- lift (py_getitem response (u "message")) ;;
       content <- lift (py_getitem msg (u "content")) ;;
       ret content)
      (fun e =>
         emit (StatusUpdate (u "Error occurred.")) ;;;
         ret (PStr (u "Error: " ++ exn_msg e)))
  end.

End Cells.

End Notebook.

(** * Notions used by the statements *)

Import OllamaManager.

(** ** The pull stream *)

Definition installing (model_name : pystr) : event :=
  Print (u "Installing " ++ model_name ++ u "... This may take several minutes.").

(** The world in which the loop over the stream starts. *)
Definition after_post (host model_name : pystr) (w : world) : world :=
  {| out := out w ++ [installing model_name];
     calls := calls w ++ [HttpCall (pull_request host model_name)];
     lines_read := lines_read w; clock_reads := clock_reads w |}.

(** A world after more output. *)
Definition add_out (evs : list event) (w : world) : world :=
  {| out := out w ++ evs; calls := calls w;
     lines_read := lines_read w; clock_reads := clock_reads w |}.

Definition add_lines (n : nat) (w : world) : world :=
  {| out := out w; calls := calls w;
     lines_read := n + lines_read w; clock_reads := clock_reads w |}.

(** What one line of the stream prints, and whether handling it raises:
    [install_line] run on its own. *)
Definition line_events (line : bytes) : list event := out (snd (install_line line fresh)).
Definition line_outcome (line : bytes) : outcome unit := fst (install_line line fresh).

Definition nonblank (line : bytes) : bool :=
  match line with [] => false | _ :: _ => true end.

(** ** Sample daemons and exceptions *)

Definition default_host : pystr := u "http://ollama:11434".

Definition connection_refused : exn :=
  {| exn_mro := ["requests.exceptions.ConnectionError";
                 "requests.exceptions.RequestException"; "OSError"]%string;
     exn_msg := u "Failed to establish a new connection: [Errno 111] Connection refused" |}.



Definition response_error : exn :=
  {| exn_mro := ["ollama.ResponseError"]%string; exn_msg := u "model not found" |}.

(** A daemon that answers every HTTP request with [r]. *)
Definition serving (r : response) : daemon :=
  {| http := fun _ => Ret r;
     ollama_chat := fun _ => Raise response_error;
     clock := fun n => round_int (Z.of_nat n) |}.

(** A transport on which every HTTP request raises [e]. *)
Definition failing (e : exn) : daemon :=
  {| http := fun _ => Raise e;
     ollama_chat := fun _ => Raise e;
     clock := fun n => round_int (Z.of_nat n) |}.

(** A daemon whose chat endpoint gives [answer], between clock readings
    [t0] and [t1]. *)
Definition chatting (answer : outcome pyval) (t0 t1 : spec_float) : daemon :=
  {| http := fun _ => Raise connection_refused;
     ollama_chat := fun _ => answer;
     clock := fun n => match n with O => t0 | _ => t1 end |}.

(** What [response.json()] raises on a body that is no JSON document. *)
Definition not_json : exn :=
  {| exn_mro := ["requests.exceptions.JSONDecodeError";
                 "requests.exceptions.InvalidJSONError";
                 "requests.exceptions.RequestException"; "OSError";
                 "JSONDecodeError"; "ValueError"]%string;
     exn_msg := u "Expecting value: line 1 column 1 (char 0)" |}.

(** A streamed body: status 200, the given lines, a clean end. *)
Definition stream_of (lines : list bytes) : response :=
  {| status_code := 200; json := Raise not_json;
     iter_lines := lines; stream_error := None |}.

Definition plain_response (code : Z) (body : outcome pyval) : response :=
  {| status_code := code; json := body; iter_lines := []; stream_error := None |}.

(** What a stream prints, how many of its lines are read and how the loop
    over it ends: the loop stops at the first line whose handling raises. *)
Fixpoint stream_events (lines : list bytes) : list event :=
  match lines with
  | [] => []
  | line :: rest =>
    line_events line ++
    match line_outcome line with Ret _ => stream_events rest | Raise _ => [] end
  end.

Fixpoint stream_reads (lines : list bytes) : nat :=
  match lines with
  | [] => O
  | line :: rest =>
    S (match line_outcome line with Ret _ => stream_reads rest | Raise _ => O end)
  end.

Fixpoint stream_outcome (lines : list bytes) (stop : option exn) : outcome unit :=
  match lines with
  | [] => match stop with Some e => Raise e | None => Ret tt end
  | line :: rest =>
    match line_outcome line with
    | Ret _ => stream_outcome rest stop
    | Raise e => Raise e
    end
  end.

(** A line that is not one JSON document: not blank, and either not UTF-8 or
    rejected by the JSON decoder. *)
Definition malformed (line : bytes) : Prop :=
  line <> [] /\
  ((exists e, decode line = Raise e) \/
   exists text e, decode line = Ret text /\ Json.loads text = Raise e).


(** The same for the lister. *)
Definition lister_raises (d : daemon) (host : pystr) (e : exn) : Prop :=
  http d (tags_request host 10) = Raise e \/
  exists resp, http d (tags_request host 10) = Ret resp
               /\ status_code resp = 200 /\ json resp = Raise e.

Definition is_dict (v : pyval) : bool :=
  match v with PDict _ => true | _ => false end.


(** The result dict carries [status == 'error']. *)
Definition is_error (v : pyval) : bool :=
  match v with
  | PDict d =>
    match dict_get d (u "status") with
    | Some (PStr s) => pystr_eqb s (u "error")
    | _ => false
    end
  | _ => false
  end.

Definition model_llama : pystr := u "llama3.2:3b".

(** A bytes literal of JSON text, written with ['] for the double quote. *)
Definition js (s : string) : bytes :=
  map (fun c => match c with x27 => x22 | _ => c end) (list_byte_of_string s).

(** A failed pull: status 404 and a body that explains. *)
Definition pull_404 : response :=
  {| status_code := 404; json := Raise not_json;
     iter_lines := [js "{'error':'pull model manifest: file does not exist'}"];
     stream_error := None |}.

(** The floats 50.0 and 100.0. *)
Definition float_50 : spec_float := round_int 50.

(** Three lines: a phase, a line that is not JSON, a progress report. *)
Definition lines_with_garbage : list bytes :=
  [js "{'status':'downloading'}"; b "not json"; js "{'completed':50,'total':100}"].

(** A progress report whose total is zero, followed by the final phase. *)
Definition lines_with_zero_total : list bytes :=
  [js "{'status':'pulling manifest','completed':0,'total':0}";
   js "{'status':'success'}"].

(** Without the line that is not JSON. *)
Definition lines_clean : list bytes :=
  [js "{'status':'downloading'}"; js "{'completed':50,'total':100}"].

(** ** Results *)


(** The OperationResult shape: a dict tagged by ['status'], either a success
    tag (['success'], or ['connected'] from the probe) or ['error'] with a
    text under ['message']. *)
Definition tagged (v : pyval) : bool :=
  match v with
  | PDict d =>
    match dict_get d (u "status") with
    | Some (PStr s) =>
      pystr_eqb s (u "success") || pystr_eqb s (u "connected")
      || pystr_eqb s (u "error")
         && match dict_get d (u "message") with Some (PStr _) => true | _ => false end
    | _ => false
    end
  | _ => false
  end.

(** The method returns, and what it returns is tagged. *)
Definition returns_tagged (run : outcome pyval * world) : Prop :=
  exists v, fst run = Ret v /\ tagged v = true.

Definition returns (run : outcome pyval * world) : Prop :=
  exists v, fst run = Ret v.

Definition record (name : string) (size : Z) : pyval :=
  PDict [(u "name", PStr (u name)); (u "size", PInt size);
         (u "modified_at", PStr (u "2025-01-01T00:00:00Z"));
         (u "digest", PStr (u "sha256:0123456789ab"))].

Definition two_models : pyval :=
  PList [record "llama3.2:3b" 2019393189; record "phi3:mini" 2176178913].

Definition tags_body (models : pyval) : pyval := PDict [(u "models", models)].

Definition chat_answer (content : pyval) : pyval :=
  PDict [(u "model", PStr model_llama);
         (u "message", PDict [(u "role", PStr (u "assistant")); (u "content", content)])].

(** The three shapes [chat] returns. *)
Inductive chat_result : pyval -> Prop :=
| chat_streaming handle :
    chat_result (PDict [(u "status", PStr (u "success")); (u "stream", handle)])
| chat_text content :
    chat_result (PDict [(u "status", PStr (u "success")); (u "response", content)])
| chat_error message :
    chat_result (error_result message).

(** A daemon that answers a chat with the text [Hello!]. *)
Definition greeting : daemon :=
  chatting (Ret (chat_answer (PStr (u "Hello!")))) (round_int 10) (round_int 12).

(** ** Rounding to binary64, in integers

    The notions in which the rounding of [SpecFloat] is described: where a
    rational lies between two integers, the nearest integer with ties to
    even, and the exponent and mantissa binary64 gives a positive rational. *)

(** Where [N / D] lies from the integer [m]: on it, or strictly between [m]
    and [m + 1], below, at or above the middle. *)
Definition located (m : Z) (l : location) (N D : Z) : Prop :=
  match l with
  | loc_Exact => N = m * D
  | loc_Inexact c => m * D < N < (m + 1) * D /\ (2 * N ?= (2 * m + 1) * D) = c
  end.

(** [N / D] rounded to the nearest integer, ties to even. *)
Definition rne (N D : Z) : Z :=
  let q := N / D in
  let r := N mod D in
  if 2 * r <? D then q
  else if D <? 2 * r then q + 1
  else if Z.even q then q else q + 1.

Definition float_emin : Z := -1074.

(** For the value [(A / B) * 2^U]: the exponent of its binary64 rounding,
    and the mantissa at that exponent. *)
Definition rnd_exp (U A B : Z) : Z :=
  Z.max (Z.log2 (A / B) + 1 + U - 53) float_emin.

Definition rnd_mant (U A B : Z) : Z :=
  rne A (B * 2 ^ (rnd_exp U A B - U)).

(** The float of mantissa [m] (at most [2^53]) and exponent [e]. *)
Definition pack (m e : Z) : spec_float :=
  if m =? 0 then S754_zero false
  else if m =? 2 ^ 53 then
    if e + 1 <=? 971 then S754_finite false (Z.to_pos (2 ^ 52)) (e + 1)
    else S754_infinity false
  else if e <=? 971 then S754_finite false (Z.to_pos m) e
  else S754_infinity false.

(** A record of [shr] as a place: its mantissa and its location. *)
Definition shr_located (mrs : shr_record) (N D : Z) : Prop :=
  0 <= shr_m mrs /\ located (shr_m mrs) (loc_of_shr_record mrs) N D.

(** [x <= y] on floats. *)
Definition float_le (x y : spec_float) : bool := SFleb x y.

(** The percentage [install_model] prints for a report of [completed] out
    of [total]. *)
Definition percent (completed total : Z) : outcome spec_float :=
  match int_true_divide completed total with
  | Ret ratio => Ret (float_mul ratio float_100)
  | Raise e => Raise e
  end.

(** A mantissa and exponent as the rounding leaves them: at most 53 bits
    (or [2^53] itself, after a carry), and a full mantissa unless the
    exponent is the least one. *)
Definition rounded (m e : Z) : Prop :=
  0 <= m <= 2 ^ 53 /\ float_emin <= e /\ (e = float_emin \/ 2 ^ 52 <= m).

(** The value of a non-negative finite float, in units of [2^float_emin]. *)
Definition units (f : spec_float) : Z :=
  match f with
  | S754_finite false p e => Z.pos p * 2 ^ (e - float_emin)
  | _ => 0
  end.

(** Zero or a positive finite float in canonical form. *)
Definition nonneg_finite (f : spec_float) : Prop :=
  match f with
  | S754_zero false => True
  | S754_finite false p e => float_emin <= e <= 971
  | _ => False
  end.

(** The value of the rounded ratio [c / t], in units of [2^float_emin]. *)
Definition ratio_units (c t : Z) : Z :=
  rnd_mant float_emin (c * 2 ^ 1074) t
  * 2 ^ (rnd_exp float_emin (c * 2 ^ 1074) t - float_emin).

(** The float that [percent] gives, from the units of the ratio. *)
Definition percent_of_units (v : Z) : spec_float :=
  pack (rnd_mant (float_emin - 46) (7036874417766400 * v) 1)
       (rnd_exp (float_emin - 46) (7036874417766400 * v) 1).

(** ** Progress reports *)

(** The percentages among what was printed, oldest first. *)
Definition progress_of (evs : list event) : list spec_float :=
  flat_map (fun e => match e with PrintProgress p => [p] | _ => [] end) evs.

(** The line is a JSON object that carries the integers [completed] and
    [total] under those keys (and possibly more, a status included). *)
Definition reports (line : bytes) (completed total : Z) : Prop :=
  exists text fields,
    decode line = Ret text /\ Json.loads text = Ret (PDict fields)
    /\ dict_get fields (u "completed") = Some (PInt completed)
    /\ dict_get fields (u "total") = Some (PInt total).

(** Each element is below the next. *)
Fixpoint ascending {A : Type} (le : A -> A -> bool) (l : list A) : bool :=
  match l with
  | x :: l' =>
    match l' with
    | y :: _ => le x y && ascending le l'
    | [] => true
    end
  | [] => true
  end.

(** A download of 100 bytes, reported at 25, 50 and 100 bytes. *)
Definition lines_quarters : list bytes :=
  [js "{'status':'downloading','completed':25,'total':100}";
   js "{'completed':50,'total':100}";
   js "{'status':'downloading','completed':100,'total':100}"].

(** ** The benchmark *)

(** [response['message']['content']] *)
Definition chat_content (response : pyval) : outcome pyval :=
  match py_getitem response (u "message") with
  | Ret msg => py_getitem msg (u "content")
  | Raise e => Raise e
  end.

(** The world after one more reading of the clock. *)
Definition after_clock (w : world) : world :=
  {| out := out w; calls := calls w; lines_read := lines_read w;
     clock_reads := S (clock_reads w) |}.

(** What [benchmark_model] returns on success. *)
Definition benchmark_result (model : pystr) (elapsed : spec_float) (text : pystr) : pyval :=
  let word_count := Z.of_nat (List.length (str_split text)) in
  PDict [(u "status", PStr (u "success"));
         (u "model", PStr model);
         (u "response_time", PFloat elapsed);
         (u "response_length", PInt (Z.of_nat (List.length text)));
         (u "word_count", PInt word_count);
         (u "words_per_second",
          if float_gt0 elapsed
          then PFloat (float_div (round_int word_count) elapsed)
          else PInt 0)].

(** A daemon that answers a chat with four words, in no time at all or in
    two seconds. *)
Definition four_words : pystr := u "I am fine, thanks.".
Definition instant : daemon :=
  chatting (Ret (chat_answer (PStr four_words))) (round_int 10) (round_int 10).
Definition two_seconds : daemon :=
  chatting (Ret (chat_answer (PStr four_words))) (round_int 10) (round_int 12).

(** * Properties *)

(** ** Rounding to the nearest integer *)

Lemma rne_spec N D :
  0 < D ->
  (2 * rne N D - 1) * D <= 2 * N <= (2 * rne N D + 1) * D
  /\ (2 * N = (2 * rne N D + 1) * D -> Z.even (rne N D) = true)
  /\ (2 * N = (2 * rne N D - 1) * D -> Z.even (rne N D) = true).
Proof.
  intro HD. unfold rne.
  pose proof (Z.div_mod N D ltac:(lia)) as Hdm.
  pose proof (Z.mod_pos_bound N D HD) as Hr.
  set (q := N / D) in *. set (r := N mod D) in *.
  destruct (Z.ltb_spec (2 * r) D) as [H1|H1].
  - repeat split; try nia.
  - destruct (Z.ltb_spec D (2 * r)) as [H2|H2].
    + repeat split; try nia.
    + assert (2 * r = D) by lia.
      destruct (Z.even q) eqn:He.
      * repeat split; try nia; auto.
      * assert (Z.even (q + 1) = true).
        { rewrite Z.even_add, He. reflexivity. }
        repeat split; try nia; auto.
Qed.

Lemma rne_mono N1 D1 N2 D2 :
  0 < D1 -> 0 < D2 -> N1 * D2 <= N2 * D1 -> rne N1 D1 <= rne N2 D2.
Proof.
  intros H1 H2 Hle.
  destruct (rne_spec N1 D1 H1) as ((Hl1 & Hu1) & _ & He1).
  destruct (rne_spec N2 D2 H2) as ((Hl2 & Hu2) & He2 & _).
  set (k1 := rne N1 D1) in *. set (k2 := rne N2 D2) in *.
  destruct (Z_le_gt_dec k1 k2) as [|Hgt]; [assumption|exfalso].
  assert (Hk : (2 * k2 + 1) * D1 <= (2 * k1 - 1) * D1) by nia.
  assert (Ha : (2 * k2 + 1) * D1 * D2 <= 2 * N1 * D2) by nia.
  assert (Hb : 2 * N2 * D1 <= (2 * k2 + 1) * D2 * D1) by nia.
  assert (Hc : 2 * N1 * D2 = (2 * k2 + 1) * D1 * D2) by nia.
  assert (Hd : 2 * N2 * D1 = (2 * k2 + 1) * D2 * D1) by nia.
  assert (E2 : 2 * N2 = (2 * k2 + 1) * D2).
  { apply (Z.mul_reg_r _ _ D1); lia. }
  assert (E1' : 2 * N1 = (2 * k2 + 1) * D1).
  { apply (Z.mul_reg_r _ _ D2); lia. }
  assert (Hk1 : k1 = k2 + 1).
  { assert ((2 * k1 - 1) * D1 <= (2 * k2 + 1) * D1) by lia.
    assert (2 * k1 - 1 <= 2 * k2 + 1) by (apply (Z.mul_le_mono_pos_r _ _ D1); lia).
    lia. }
  assert (E1 : 2 * N1 = (2 * k1 - 1) * D1) by (rewrite Hk1, E1'; ring).
  specialize (He1 E1). specialize (He2 E2).
  rewrite Hk1, Z.even_add, He2 in He1. discriminate.
Qed.

Lemma rne_exact m D : 0 < D -> rne (m * D) D = m.
Proof.
  intro HD. unfold rne. rewrite Z.div_mul, Z.mod_mul by lia.
  destruct (Z.ltb_spec (2 * 0) D); [reflexivity|lia].
Qed.

Lemma rne_scale N D k : 0 < D -> 0 < k -> rne (N * k) (D * k) = rne N D.
Proof.
  intros HD Hk. unfold rne.
  rewrite Z.div_mul_cancel_r, Z.mul_mod_distr_r by lia.
  destruct (Z.ltb_spec (2 * (N mod D)) D), (Z.ltb_spec (2 * (N mod D * k)) (D * k));
    try nia; try reflexivity.
  destruct (Z.ltb_spec D (2 * (N mod D))), (Z.ltb_spec (D * k) (2 * (N mod D * k)));
    try nia; reflexivity.
Qed.

Lemma rne_le N D M : 0 < D -> N <= M * D -> rne N D <= M.
Proof.
  intros HD H. rewrite <- (rne_exact M D HD). apply rne_mono; nia.
Qed.

Lemma rne_ge N D M : 0 < D -> M * D <= N -> M <= rne N D.
Proof.
  intros HD H. rewrite <- (rne_exact M D HD). apply rne_mono; nia.
Qed.

(** ** The shifts of [SpecFloat] keep the place *)

Lemma round_nearest_even_located m l N D :
  0 < D -> located m l N D -> round_nearest_even m l = rne N D.
Proof.
  intros HD H. destruct l as [|c]; cbv [located] in H.
  - subst N. cbn [round_nearest_even]. now rewrite rne_exact.
  - destruct H as [[Hlo Hhi] Hc]. unfold rne.
    assert (Hq : N / D = m).
    { symmetry. apply (Z.div_unique N D m (N - m * D)); lia. }
    assert (Hr : N mod D = N - m * D).
    { symmetry. apply (Z.mod_unique N D m (N - m * D)); lia. }
    rewrite Hq, Hr.
    pose proof (Z.compare_spec (2 * N) ((2 * m + 1) * D)) as Hs. rewrite Hc in Hs.
    destruct c; cbn [round_nearest_even]; inversion Hs as [Hc'|Hc'|Hc'].
    + destruct (Z.ltb_spec (2 * (N - m * D)) D); [lia|].
      destruct (Z.ltb_spec D (2 * (N - m * D))); [lia|reflexivity].
    + destruct (Z.ltb_spec (2 * (N - m * D)) D); [reflexivity|lia].
    + destruct (Z.ltb_spec (2 * (N - m * D)) D); [lia|].
      destruct (Z.ltb_spec D (2 * (N - m * D))); [reflexivity|lia].
Qed.

Ltac compare_hyp H :=
  match type of H with
  | (?x ?= ?y) = _ =>
    let Hs := fresh "Hs" in
    pose proof (Z.compare_spec x y) as Hs; rewrite H in Hs; inversion Hs; clear Hs
  end.

Ltac compare_goal :=
  match goal with
  | |- (_ ?= _) = Eq => apply Z.compare_eq_iff
  | |- (_ ?= _) = Lt => apply Z.compare_lt_iff
  | |- (_ ?= _) = Gt => apply Z.compare_gt_iff
  end.

Ltac shr_case H :=
  match type of H with
  | _ /\ _ =>
    let Hlo := fresh "Hlo" in
    let Hhi := fresh "Hhi" in
    let Hc := fresh "Hc" in
    destruct H as [[Hlo Hhi] Hc]; compare_hyp Hc
  | _ => idtac
  end;
  (split; [split; [lia|]|reflexivity]);
  first [lia | split; [lia|compare_goal; lia]].

Lemma shr_1_located mrs N D :
  0 < D -> shr_located mrs N D ->
  shr_located (shr_1 mrs) N (2 * D) /\ shr_m (shr_1 mrs) = shr_m mrs / 2.
Proof.
  intros HD [Hm H]. destruct mrs as [m r s]. cbn [shr_m] in *.
  destruct m as [|p|p]; [| |lia].
  - change (0 / 2) with 0.
    destruct r, s; cbv [located loc_of_shr_record shr_1 shr_m orb shr_located] in *;
      shr_case H.
  - destruct p as [p|p|].
    + assert (Hdiv : Z.pos p~1 / 2 = Z.pos p).
      { symmetry. apply (Z.div_unique _ 2 _ 1); lia. }
      rewrite Hdiv.
      destruct r, s; cbv [located loc_of_shr_record shr_1 shr_m orb shr_located] in *;
        rewrite ?(Pos2Z.inj_xI p) in *; shr_case H.
    + assert (Hdiv : Z.pos p~0 / 2 = Z.pos p).
      { symmetry. apply (Z.div_unique _ 2 _ 0); lia. }
      rewrite Hdiv.
      destruct r, s; cbv [located loc_of_shr_record shr_1 shr_m orb shr_located] in *;
        rewrite ?(Pos2Z.inj_xO p) in *; shr_case H.
    + change (1 / 2) with 0.
      destruct r, s; cbv [located loc_of_shr_record shr_1 shr_m orb shr_located] in *;
        shr_case H.
Qed.

Lemma iter_shr_1_located p :
  forall mrs N D,
    0 < D -> shr_located mrs N D ->
    shr_located (iter_pos shr_1 p mrs) N (2 ^ Z.pos p * D)
    /\ shr_m (iter_pos shr_1 p mrs) = shr_m mrs / 2 ^ Z.pos p.
Proof.
  induction p as [p IH|p IH|]; intros mrs N D HD H; cbn [iter_pos].
  - destruct (shr_1_located mrs N D HD H) as [H1 E1].
    destruct (IH _ N (2 * D) ltac:(lia) H1) as [H2 E2].
    assert (Hp : 0 < 2 ^ Z.pos p) by (apply Z.pow_pos_nonneg; lia).
    destruct (IH _ N (2 ^ Z.pos p * (2 * D)) ltac:(nia) H2) as [H3 E3].
    assert (Hpow : 2 ^ Z.pos p~1 = 2 * 2 ^ Z.pos p * 2 ^ Z.pos p).
    { rewrite (Pos2Z.inj_xI p).
      replace (2 * Z.pos p + 1) with (1 + Z.pos p + Z.pos p) by lia.
      rewrite !Z.pow_add_r by lia. reflexivity. }
    rewrite Hpow. split.
    + replace (2 * 2 ^ Z.pos p * 2 ^ Z.pos p * D)
        with (2 ^ Z.pos p * (2 ^ Z.pos p * (2 * D))) by ring.
      exact H3.
    + rewrite E3, E2, E1. rewrite !Z.div_div by lia. f_equal. ring.
  - destruct (IH _ N D HD H) as [H2 E2].
    assert (Hp : 0 < 2 ^ Z.pos p) by (apply Z.pow_pos_nonneg; lia).
    destruct (IH _ N (2 ^ Z.pos p * D) ltac:(nia) H2) as [H3 E3].
    assert (Hpow : 2 ^ Z.pos p~0 = 2 ^ Z.pos p * 2 ^ Z.pos p).
    { rewrite (Pos2Z.inj_xO p). replace (2 * Z.pos p) with (Z.pos p + Z.pos p) by lia.
      now rewrite Z.pow_add_r by lia. }
    rewrite Hpow. split.
    + replace (2 ^ Z.pos p * 2 ^ Z.pos p * D)
        with (2 ^ Z.pos p * (2 ^ Z.pos p * D)) by ring.
      exact H3.
    + rewrite E3, E2. rewrite Z.div_div by lia. reflexivity.
  - change (2 ^ 1) with 2. now apply shr_1_located.
Qed.

Lemma shr_located_spec mrs e n N D :
  0 < D -> 0 <= n -> shr_located mrs N D ->
  shr_located (fst (shr mrs e n)) N (2 ^ n * D)
  /\ shr_m (fst (shr mrs e n)) = shr_m mrs / 2 ^ n
  /\ snd (shr mrs e n) = e + n.
Proof.
  intros HD Hn H. destruct n as [|p|p]; [| |lia]; cbn [shr fst snd].
  - change (2 ^ 0) with 1. rewrite Z.mul_1_l, Z.div_1_r, Z.add_0_r. auto.
  - destruct (iter_shr_1_located p mrs N D HD H) as [H1 E1]. auto.
Qed.

Lemma shr_nonpos mrs e n : n <= 0 -> shr mrs e n = (mrs, e).
Proof. destruct n; [reflexivity|lia|reflexivity]. Qed.

Lemma shr_record_of_loc_located m l N D :
  0 <= m -> located m l N D -> shr_located (shr_record_of_loc m l) N D.
Proof.
  intros Hm H. destruct l as [|[| |]]; split; cbn; assumption.
Qed.

Lemma digits2_pos_size p : digits2_pos p = Pos.size p.
Proof. induction p; cbn; now rewrite ?IHp. Qed.

Lemma Zdigits2_log2 m : 0 < m -> Zdigits2 m = Z.log2 m + 1.
Proof.
  destruct m as [|p|p]; [lia| |lia]. intros _. cbn [Zdigits2].
  rewrite digits2_pos_size. destruct p; cbn [Z.log2 Pos.size]; lia.
Qed.
Lemma fexp_eq e : fexp 53 1024 e = Z.max (e - 53) float_emin.
Proof. reflexivity. Qed.

Lemma shr_record_of_loc_m m l : shr_m (shr_record_of_loc m l) = m.
Proof. now destruct l as [|[| |]]. Qed.

Lemma bra_finish m e :
  0 <= m <= 2 ^ 53 -> float_emin <= e ->
  (let '(mrs, e') := shr_fexp 53 1024 m e loc_Exact in
   match shr_m mrs with
   | 0 => S754_zero false
   | Z.pos p => if e' <=? 1024 - 53 then S754_finite false p e' else S754_infinity false
   | Z.neg _ => S754_nan
   end) = pack m e.
Proof.
  intros Hm He. unfold shr_fexp. rewrite fexp_eq. unfold float_emin in *.
  destruct (Z.eq_dec m 0) as [->|Hm0].
  - rewrite shr_nonpos by (cbn [Zdigits2]; lia). reflexivity.
  - destruct (Z.eq_dec m (2 ^ 53)) as [->|Hm53].
    + change (Zdigits2 (2 ^ 53)) with 54.
      replace (Z.max (54 + e - 53) (-1074) - e) with 1 by lia.
      unfold pack. change (2 ^ 53 =? 0) with false. rewrite Z.eqb_refl.
      cbn [shr shr_record_of_loc iter_pos shr_1 shr_m].
      generalize (e + 1). intro x. reflexivity.
    + assert (Hlog : Z.log2 m < 53) by (apply Z.log2_lt_pow2; lia).
      rewrite shr_nonpos by (rewrite Zdigits2_log2 by lia; lia).
      rewrite shr_record_of_loc_m. unfold pack.
      destruct (Z.eqb_spec m 0); [contradiction|].
      destruct (Z.eqb_spec m (2 ^ 53)); [contradiction|].
      destruct m as [|p|p]; [contradiction| |lia]. reflexivity.
Qed.

Lemma located_bounds m l N D : 0 < D -> located m l N D -> m * D <= N < (m + 1) * D.
Proof. intros HD H. destruct l; cbv [located] in H; [subst; nia|lia]. Qed.

Lemma log2_scaled m N D j :
  0 < m -> 0 < D -> 0 <= j -> m * D <= N < (m + 1) * D ->
  Z.log2 (N * 2 ^ j / D) = Z.log2 m + j.
Proof.
  intros Hm HD Hj [Hlo Hhi].
  pose proof (Z.log2_nonneg m) as HL.
  destruct (Z.log2_spec m Hm) as [H1 H2].
  assert (Hj2 : 0 < 2 ^ j) by (apply Z.pow_pos_nonneg; lia).
  assert (E1 : 2 ^ (Z.log2 m + j) = 2 ^ Z.log2 m * 2 ^ j) by (apply Z.pow_add_r; lia).
  assert (E2 : 2 ^ Z.succ (Z.log2 m + j) = 2 ^ Z.succ (Z.log2 m) * 2 ^ j).
  { rewrite <- Z.pow_add_r by lia. f_equal. lia. }
  apply Z.log2_unique; [lia|]. rewrite E1, E2.
  split.
  - apply Z.div_le_lower_bound; [assumption|]. nia.
  - apply Z.div_lt_upper_bound; [assumption|]. nia.
Qed.

Lemma binary_round_aux_spec mx ex lx N D U :
  0 < D -> located mx lx N D -> U <= ex -> U <= float_emin ->
  (0 < mx /\ ex <= fexp 53 1024 (Zdigits2 mx + ex))
  \/ (mx = 0 /\ ex = float_emin /\ U = float_emin) ->
  binary_round_aux 53 1024 false mx ex lx =
  pack (rnd_mant U (N * 2 ^ (ex - U)) D) (rnd_exp U (N * 2 ^ (ex - U)) D).
Proof.
  intros HD Hloc HU HUe Hcase.
  pose proof (located_bounds _ _ _ _ HD Hloc) as Hb.
  assert (Hmx : 0 <= mx) by (destruct Hcase as [[? _]|[-> _]]; lia).
  set (e1 := fexp 53 1024 (Zdigits2 mx + ex)).
  assert (He1 : rnd_exp U (N * 2 ^ (ex - U)) D = e1 /\ ex <= e1 /\ float_emin <= e1
                /\ N <= 2 ^ 53 * (2 ^ (e1 - ex) * D)).
  { unfold rnd_exp, e1. rewrite fexp_eq. destruct Hcase as [[Hpos Hprec]|(-> & -> & ->)].
    - rewrite (log2_scaled mx N D (ex - U)) by lia.
      rewrite Zdigits2_log2 in * by lia. rewrite fexp_eq in Hprec.
      replace (Z.log2 mx + (ex - U) + 1 + U - 53) with (Z.log2 mx + 1 + ex - 53) by lia.
      split; [reflexivity|]. split; [assumption|]. split; [lia|].
      destruct (Z.log2_spec mx Hpos) as [_ H2].
      set (n := Z.max (Z.log2 mx + 1 + ex - 53) float_emin - ex) in *.
      assert (Hn : 0 <= n) by (unfold n; lia).
      assert (Hpow : 2 ^ Z.succ (Z.log2 mx) <= 2 ^ 53 * 2 ^ n).
      { rewrite <- Z.pow_add_r by lia. apply Z.pow_le_mono_r; [lia|].
        unfold n. pose proof (Z.log2_nonneg mx). lia. }
      nia.
    - rewrite Z.sub_diag, Z.mul_1_r. change (2 ^ 0) with 1.
      replace (N / D) with 0 by (symmetry; apply Z.div_small; lia).
      change (Z.log2 0) with 0. change (Zdigits2 0) with 0. unfold float_emin.
      replace (Z.max (0 + 1 + -1074 - 53) (-1074)) with (-1074) by lia.
      replace (Z.max (0 + -1074 - 53) (-1074)) with (-1074) by lia.
      rewrite Z.sub_diag. change (2 ^ 0) with 1. repeat split; nia. }
  destruct He1 as (Hexp & Hn & Hemin & Hbound).
  rewrite Hexp. unfold rnd_mant. rewrite Hexp.
  unfold binary_round_aux, shr_fexp. fold e1.
  destruct (shr_located_spec (shr_record_of_loc mx lx) ex (e1 - ex) N D HD ltac:(lia)
              (shr_record_of_loc_located _ _ _ _ Hmx Hloc)) as (H1 & _ & H3).
  destruct (shr (shr_record_of_loc mx lx) ex (e1 - ex)) as [mrs' e'].
  cbn [fst snd] in H1, H3. subst e'. destruct H1 as [Hm1 H1].
  assert (Hp : 0 < 2 ^ (e1 - ex)) by (apply Z.pow_pos_nonneg; lia).
  assert (Hq : 0 < 2 ^ (ex - U)) by (apply Z.pow_pos_nonneg; lia).
  rewrite (round_nearest_even_located _ _ N (2 ^ (e1 - ex) * D)) by (assumption || nia).
  replace (ex + (e1 - ex)) with e1 by lia.
  replace (D * 2 ^ (e1 - U)) with (2 ^ (e1 - ex) * D * 2 ^ (ex - U)).
  2:{ replace (e1 - U) with ((e1 - ex) + (ex - U)) by lia.
      rewrite Z.pow_add_r by lia. ring. }
  rewrite rne_scale by nia.
  apply bra_finish; [|assumption].
  split; [apply rne_ge; nia|apply rne_le; nia].
Qed.

(** ** The rounding is monotone *)

Lemma div_le_cross A1 B1 A2 B2 :
  0 < B1 -> 0 < B2 -> A1 * B2 <= A2 * B1 -> A1 / B1 <= A2 / B2.
Proof.
  intros H1 H2 H. apply Z.div_le_lower_bound; [assumption|].
  pose proof (Z.mul_div_le A1 B1 H1) as Hd.
  assert (B1 * (B2 * (A1 / B1)) <= B1 * A2) by nia.
  apply (Z.mul_le_mono_pos_l _ _ B1); assumption.
Qed.

Lemma rnd_rounded U A B :
  0 < B -> 0 <= A -> U <= float_emin ->
  rounded (rnd_mant U A B) (rnd_exp U A B).
Proof.
  intros HB HA HU. unfold rounded, rnd_mant.
  set (e := rnd_exp U A B).
  assert (He : float_emin <= e) by (unfold e, rnd_exp; lia).
  set (F := A / B).
  assert (HF : 0 <= F) by (apply Z.div_pos; lia).
  pose proof (Z.log2_nonneg F) as HL.
  assert (HFu : F < 2 ^ (Z.log2 F + 1)).
  { destruct (Z.eq_dec F 0) as [->|]; [reflexivity|].
    replace (Z.log2 F + 1) with (Z.succ (Z.log2 F)) by lia.
    apply Z.log2_spec. lia. }
  assert (HAu : A < (F + 1) * B).
  { unfold F. pose proof (Z.mod_pos_bound A B HB). pose proof (Z.div_mod A B). nia. }
  assert (HAl : F * B <= A).
  { unfold F. pose proof (Z.mul_div_le A B HB). lia. }
  assert (Hk : 0 <= e - U) by lia.
  assert (Hp : 0 < 2 ^ (e - U)) by (apply Z.pow_pos_nonneg; lia).
  split; [split|split; [assumption|]].
  - apply rne_ge; nia.
  - apply rne_le; [nia|].
    assert (Hpow : 2 ^ (Z.log2 F + 1) <= 2 ^ 53 * 2 ^ (e - U)).
    { rewrite <- Z.pow_add_r by lia. apply Z.pow_le_mono_r; [lia|].
      unfold e, rnd_exp. fold F. lia. }
    nia.
  - destruct (Z.eq_dec e float_emin) as [|Hne]; [now left|right].
    assert (Ee : e = Z.log2 F + 1 + U - 53).
    { unfold e, rnd_exp in Hne |- *. fold F in Hne |- *. lia. }
    assert (HFpos : 0 < F).
    { destruct (Z.eq_dec F 0) as [E0|]; [|lia]. rewrite E0 in Ee.
      change (Z.log2 0) with 0 in Ee. unfold float_emin in *. lia. }
    destruct (Z.log2_spec F HFpos) as [HFl _].
    apply rne_ge; [nia|].
    assert (Hpow : 2 ^ 52 * 2 ^ (e - U) = 2 ^ Z.log2 F).
    { rewrite <- Z.pow_add_r by lia. f_equal. lia. }
    nia.
Qed.

Lemma rnd_mono U A1 B1 A2 B2 :
  0 < B1 -> 0 < B2 -> 0 <= A1 -> A1 * B2 <= A2 * B1 -> U <= float_emin ->
  rnd_exp U A1 B1 <= rnd_exp U A2 B2
  /\ rnd_mant U A1 B1 * 2 ^ (rnd_exp U A1 B1 - float_emin)
     <= rnd_mant U A2 B2 * 2 ^ (rnd_exp U A2 B2 - float_emin).
Proof.
  intros H1 H2 HA Hle HU.
  assert (HA2 : 0 <= A2) by nia.
  destruct (rnd_rounded U A1 B1 H1 HA HU) as ((Hm1l & Hm1u) & He1 & Hc1).
  destruct (rnd_rounded U A2 B2 H2 HA2 HU) as ((Hm2l & Hm2u) & He2 & Hc2).
  assert (Hexp : rnd_exp U A1 B1 <= rnd_exp U A2 B2).
  { unfold rnd_exp. apply Z.max_le_compat_r.
    pose proof (Z.log2_le_mono _ _ (div_le_cross _ _ _ _ H1 H2 Hle)). lia. }
  split; [assumption|].
  set (e1 := rnd_exp U A1 B1) in *. set (e2 := rnd_exp U A2 B2) in *.
  assert (Hp1 : 0 < 2 ^ (e1 - float_emin)) by (apply Z.pow_pos_nonneg; lia).
  destruct (Z.eq_dec e1 e2) as [E|Hne].
  - assert (Hm : rnd_mant U A1 B1 <= rnd_mant U A2 B2).
    { unfold rnd_mant. fold e1 e2. rewrite <- E.
      assert (0 < 2 ^ (e1 - U)) by (apply Z.pow_pos_nonneg; lia).
      apply rne_mono; nia. }
    rewrite <- E. nia.
  - assert (Hlt : e1 + 1 <= e2) by lia.
    assert (Hm2 : 2 ^ 52 <= rnd_mant U A2 B2) by (destruct Hc2; lia).
    assert (Hpow : 2 * 2 ^ (e1 - float_emin) <= 2 ^ (e2 - float_emin)).
    { replace (2 * 2 ^ (e1 - float_emin)) with (2 ^ (e1 + 1 - float_emin)).
      - apply Z.pow_le_mono_r; lia.
      - replace (e1 + 1 - float_emin) with (Z.succ (e1 - float_emin)) by lia.
        apply Z.pow_succ_r. lia. }
    change (2 ^ 53) with (2 * 2 ^ 52) in Hm1u.
    assert (0 < 2 ^ 52) by reflexivity.
    nia.
Qed.

(** ** Order of the rounded floats *)

Lemma pack_normal m e :
  rounded m e ->
  exists a ea, pack m e = pack a ea /\ rounded a ea /\ a < 2 ^ 53
               /\ a * 2 ^ (ea - float_emin) = m * 2 ^ (e - float_emin).
Proof.
  intros ((Hl & Hu) & He & Hc).
  destruct (Z.eq_dec m (2 ^ 53)) as [->|Hne].
  - exists (2 ^ 52), (e + 1). split; [reflexivity|]. split.
    + split; [split; [discriminate|discriminate]|]. split; [lia|now right].
    + split; [reflexivity|].
      replace (e + 1 - float_emin) with (Z.succ (e - float_emin)) by lia.
      rewrite Z.pow_succ_r by lia. change (2 ^ 53) with (2 ^ 52 * 2). ring.
  - exists m, e. split; [reflexivity|]. split; [now repeat split|]. split; [lia|reflexivity].
Qed.

Lemma rounded_order a ea b eb :
  rounded a ea -> rounded b eb -> a < 2 ^ 53 -> b < 2 ^ 53 -> 0 < a ->
  a * 2 ^ (ea - float_emin) <= b * 2 ^ (eb - float_emin) ->
  0 < b /\ ea <= eb /\ (ea = eb -> a <= b).
Proof.
  intros ((Hal & _) & Hea & Hca) ((Hbl & _) & Heb & Hcb) Ha Hb Hpos Hle.
  assert (Hpa : 0 < 2 ^ (ea - float_emin)) by (apply Z.pow_pos_nonneg; lia).
  assert (Hpb : 0 < 2 ^ (eb - float_emin)) by (apply Z.pow_pos_nonneg; lia).
  split; [nia|]. split.
  - destruct (Z_le_gt_dec ea eb) as [|Hgt]; [assumption|exfalso].
    assert (Ha52 : 2 ^ 52 <= a) by (destruct Hca; lia).
    assert (Hpow : 2 * 2 ^ (eb - float_emin) <= 2 ^ (ea - float_emin)).
    { replace (2 * 2 ^ (eb - float_emin)) with (2 ^ (eb + 1 - float_emin)).
      - apply Z.pow_le_mono_r; lia.
      - replace (eb + 1 - float_emin) with (Z.succ (eb - float_emin)) by lia.
        apply Z.pow_succ_r. lia. }
    change (2 ^ 53) with (2 * 2 ^ 52) in Hb. assert (0 < 2 ^ 52) by reflexivity. nia.
  - intros ->. nia.
Qed.

Lemma pack_le m1 e1 m2 e2 :
  rounded m1 e1 -> rounded m2 e2 ->
  m1 * 2 ^ (e1 - float_emin) <= m2 * 2 ^ (e2 - float_emin) ->
  SFleb (pack m1 e1) (pack m2 e2) = true.
Proof.
  intros R1 R2 Hle.
  destruct (pack_normal m1 e1 R1) as (a & ea & -> & Ra & Ha & Ea).
  destruct (pack_normal m2 e2 R2) as (b & eb & -> & Rb & Hb & Eb).
  rewrite <- Ea, <- Eb in Hle. clear R1 R2 Ea Eb m1 e1 m2 e2.
  assert (Hal : 0 <= a) by (destruct Ra as ((? & _) & _); assumption).
  assert (Hbl : 0 <= b) by (destruct Rb as ((? & _) & _); assumption).
  unfold pack.
  destruct (Z.eqb_spec a 0) as [->|Ha0].
  - destruct (b =? 0); [reflexivity|]. destruct (b =? 2 ^ 53).
    + destruct (eb + 1 <=? 971); reflexivity.
    + destruct (eb <=? 971); reflexivity.
  - destruct (rounded_order a ea b eb Ra Rb Ha Hb ltac:(lia) Hle) as (Hbpos & Hexp & Hm).
    destruct (Z.eqb_spec a (2 ^ 53)); [lia|].
    destruct (Z.eqb_spec b 0); [lia|]. destruct (Z.eqb_spec b (2 ^ 53)); [lia|].
    destruct a as [|pa|pa]; [lia| |lia]. destruct b as [|pb|pb]; [lia| |lia].
    cbn [Z.to_pos].
    destruct (Z.leb_spec ea 971), (Z.leb_spec eb 971); try reflexivity; [|lia].
    unfold SFleb, SFcompare.
    destruct (Z.compare_spec ea eb) as [E|E|E]; [|reflexivity|lia].
    specialize (Hm E). change (Pos.compare_cont Eq pa pb) with (Pos.compare pa pb).
    destruct (Pos.compare_spec pa pb); [reflexivity|reflexivity|lia].
Qed.

Lemma pack_units m e :
  rounded m e -> nonneg_finite (pack m e) ->
  units (pack m e) = m * 2 ^ (e - float_emin).
Proof.
  intros R Hf. destruct (pack_normal m e R) as (a & ea & E & Ra & Ha & <-).
  rewrite E in *. clear E R. destruct Ra as ((Hal & _) & Hea & _).
  unfold pack in *.
  destruct (Z.eqb_spec a 0) as [->|]; [reflexivity|].
  destruct (Z.eqb_spec a (2 ^ 53)); [lia|].
  destruct (ea <=? 971); [|contradiction].
  destruct a as [|pa|pa]; [lia| |lia]. reflexivity.
Qed.

Lemma pack_nonneg_finite m e :
  rounded m e -> e < 971 -> nonneg_finite (pack m e).
Proof.
  intros ((Hl & Hu) & He & _) Hlt. unfold pack.
  destruct (Z.eqb_spec m 0); [exact I|].
  destruct (Z.eqb_spec m (2 ^ 53)).
  - destruct (Z.leb_spec (e + 1) 971); [|lia]. cbn. lia.
  - destruct (Z.leb_spec e 971); [|lia]. destruct m as [|p|p]; [lia| |lia]. cbn. lia.
Qed.

(** ** Division and multiplication, as roundings *)

Lemma new_location_located t q r :
  0 < t -> 0 <= r < t -> located q (new_location t r) (q * t + r) t.
Proof.
  intros Ht Hr. unfold new_location, new_location_even, new_location_odd.
  destruct (Z.even t) eqn:Ev; (destruct (Z.eqb_spec r 0) as [->|Hr0]; [cbv [located]; ring|]).
  - cbv [located]. split; [nia|].
    destruct (Z.compare_spec (2 * r) t); compare_goal; nia.
  - assert (Hodd : Z.odd t = true) by (rewrite <- Z.negb_even, Ev; reflexivity).
    apply Z.odd_spec in Hodd. destruct Hodd as [k Hk].
    cbv [located]. split; [nia|].
    destruct (Z.compare_spec (2 * r + 1) t); compare_goal; nia.
Qed.

Lemma float_div_ints c t :
  0 < c -> 0 < t ->
  float_div (exact_int c) (exact_int t) =
  pack (rnd_mant float_emin (c * 2 ^ 1074) t) (rnd_exp float_emin (c * 2 ^ 1074) t).
Proof.
  intros Hc Ht.
  destruct c as [|pc|pc]; [lia| |lia]. destruct t as [|pt|pt]; [lia| |lia].
  unfold float_div, exact_int, SFdiv, SFdiv_core_binary, float_prec, float_emax.
  cbn [xorb].
  rewrite !Zdigits2_log2 by lia. rewrite fexp_eq.
  set (c := Z.pos pc) in *. set (t := Z.pos pt) in *.
  set (L1 := Z.log2 c). set (L2 := Z.log2 t).
  pose proof (Z.log2_nonneg c) as HL1. pose proof (Z.log2_nonneg t) as HL2.
  fold L1 in HL1. fold L2 in HL2.
  destruct (Z.log2_spec c Hc) as [Hc1 Hc2]. destruct (Z.log2_spec t Ht) as [Ht1 Ht2].
  fold L1 in Hc1, Hc2. fold L2 in Ht1, Ht2.
  set (e' := Z.min (Z.max (L1 + 1 + 0 - (L2 + 1 + 0) - 53) float_emin) (0 - 0)).
  assert (He' : float_emin <= e' <= 0) by (unfold e', float_emin; lia).
  assert (Hm' : match 0 - 0 - e' with
                | 0 => c
                | Z.pos _ => Z.shiftl c (0 - 0 - e')
                | Z.neg _ => 0
                end = c * 2 ^ (- e')).
  { replace (0 - 0 - e') with (- e') by lia.
    destruct (- e') as [|p|p] eqn:E; [change (2 ^ 0) with 1; lia| |lia].
    apply Z.shiftl_mul_pow2. lia. }
  rewrite Hm'.
  assert (Hs : 0 < 2 ^ (- e')) by (apply Z.pow_pos_nonneg; lia).
  pose proof (Z_div_mod (c * 2 ^ (- e')) t ltac:(lia)) as Hdm.
  destruct (Z.div_eucl (c * 2 ^ (- e')) t) as [q r]. destruct Hdm as [Hdm Hr].
  assert (HN : c * 2 ^ (- e') = q * t + r) by lia.
  assert (Hq0 : 0 <= q) by nia.
  rewrite (binary_round_aux_spec q e' _ (q * t + r) t float_emin Ht
             (new_location_located t q r Ht Hr) ltac:(lia) ltac:(lia)).
  - rewrite <- HN.
    replace (c * 2 ^ (- e') * 2 ^ (e' - float_emin)) with (c * 2 ^ 1074); [reflexivity|].
    rewrite <- Z.mul_assoc, <- Z.pow_add_r by (unfold float_emin in *; lia).
    f_equal. f_equal. unfold float_emin. lia.
  - destruct (Z.eq_dec e' float_emin) as [Ee|Hne].
    + destruct (Z.eq_dec q 0) as [->|]; [now right|left].
      split; [lia|]. rewrite fexp_eq. lia.
    + left.
      assert (He'u : e' <= L1 - L2 - 53) by (unfold e', float_emin in *; lia).
      assert (Hpow : 2 ^ 52 * 2 ^ Z.succ L2 <= 2 ^ L1 * 2 ^ (- e')).
      { rewrite <- !Z.pow_add_r by lia. apply Z.pow_le_mono_r; lia. }
      assert (Hq52 : 2 ^ 52 <= q).
      { assert (0 < 2 ^ 52) by reflexivity. nia. }
      assert (Hqpos : 0 < q) by (assert (0 < 2 ^ 52) by reflexivity; lia).
      split; [assumption|].
      rewrite fexp_eq, Zdigits2_log2 by assumption.
      assert (52 <= Z.log2 q) by (apply Z.log2_le_pow2; assumption).
      lia.
Qed.

Lemma float_mul_100 f :
  nonneg_finite f ->
  float_mul f float_100 =
  pack (rnd_mant (float_emin - 46) (7036874417766400 * units f) 1)
       (rnd_exp (float_emin - 46) (7036874417766400 * units f) 1).
Proof.
  intro Hf. change float_100 with (S754_finite false 7036874417766400 (-46)).
  destruct f as [[|]| | |[|] p e]; try contradiction; [reflexivity|].
  cbn [nonneg_finite] in Hf.
  unfold float_mul, SFmul, float_prec, float_emax. cbn [xorb].
  rewrite (binary_round_aux_spec _ _ _ (Z.pos (p * 7036874417766400)) 1 (float_emin - 46));
    try lia.
  - cbn [units].
    replace (Z.pos (p * 7036874417766400) * 2 ^ (e + -46 - (float_emin - 46)))
      with (7036874417766400 * (Z.pos p * 2 ^ (e - float_emin))); [reflexivity|].
    rewrite Pos2Z.inj_mul. replace (e + -46 - (float_emin - 46)) with (e - float_emin) by lia.
    ring.
  - cbv [located]. lia.
  - left. split; [lia|]. rewrite fexp_eq, Zdigits2_log2 by lia.
    assert (52 <= Z.log2 (Z.pos (p * 7036874417766400))).
    { apply Z.log2_le_pow2; [lia|]. rewrite Pos2Z.inj_mul.
      change (2 ^ 52) with 4503599627370496. lia. }
    lia.
Qed.

(** ** The percentage of a progress report *)

Lemma ratio_exp_le c t :
  0 <= c <= t -> 0 < t -> rnd_exp float_emin (c * 2 ^ 1074) t <= -52.
Proof.
  intros Hc Ht. unfold rnd_exp.
  assert (Hd : c * 2 ^ 1074 / t <= 2 ^ 1074).
  { apply Z.div_le_upper_bound; [lia|]. assert (0 < 2 ^ 1074) by reflexivity. nia. }
  pose proof (Z.log2_le_mono _ _ Hd) as HL. rewrite Z.log2_pow2 in HL by lia.
  unfold float_emin. lia.
Qed.

Lemma int_true_divide_ratio c t :
  0 <= c <= t -> 0 < t ->
  exists q, int_true_divide c t = Ret q /\ nonneg_finite q /\ units q = ratio_units c t.
Proof.
  intros Hc Ht. unfold int_true_divide.
  destruct (Z.eqb_spec t 0); [lia|]. destruct (Z.eqb_spec c 0) as [->|Hc0].
  - exists (S754_zero false). destruct (Z.ltb_spec t 0); [lia|].
    split; [reflexivity|]. split; [exact I|].
    unfold ratio_units, rnd_mant. rewrite Z.mul_0_l.
    replace (rne 0 _) with 0; [reflexivity|].
    symmetry. apply (rne_exact 0). apply Z.mul_pos_pos; [assumption|].
    apply Z.pow_pos_nonneg; [lia|]. unfold rnd_exp. lia.
  - rewrite float_div_ints by lia.
    assert (R : rounded (rnd_mant float_emin (c * 2 ^ 1074) t)
                        (rnd_exp float_emin (c * 2 ^ 1074) t)).
    { apply rnd_rounded; try lia; assert (0 < 2 ^ 1074) by reflexivity; nia. }
    pose proof (ratio_exp_le c t Hc Ht) as He.
    pose proof (pack_nonneg_finite _ _ R ltac:(lia)) as Hf.
    eexists. split; [|split; [exact Hf|now apply pack_units]].
    destruct (pack _ _) as [[|]|[|]| |[|] p e]; try contradiction; reflexivity.
Qed.

Lemma percent_units c t :
  0 <= c <= t -> 0 < t -> percent c t = Ret (percent_of_units (ratio_units c t)).
Proof.
  intros Hc Ht. unfold percent.
  destruct (int_true_divide_ratio c t Hc Ht) as (q & -> & Hf & <-).
  now rewrite float_mul_100.
Qed.

Lemma ratio_units_mono c1 c2 t :
  0 <= c1 <= c2 -> 0 < t -> 0 <= ratio_units c1 t <= ratio_units c2 t.
Proof.
  intros Hc Ht. assert (H2 : 0 < 2 ^ 1074) by reflexivity. unfold ratio_units. split.
  - destruct (rnd_rounded float_emin (c1 * 2 ^ 1074) t Ht ltac:(nia) ltac:(lia))
      as ((Hl & _) & He & _).
    apply Z.mul_nonneg_nonneg; [assumption|]. apply Z.pow_nonneg. lia.
  - apply rnd_mono; try lia; nia.
Qed.

Lemma percent_of_units_mono v1 v2 :
  0 <= v1 <= v2 -> float_le (percent_of_units v1) (percent_of_units v2) = true.
Proof.
  intros Hv. unfold float_le, percent_of_units.
  apply pack_le.
  - apply rnd_rounded; unfold float_emin; lia.
  - apply rnd_rounded; unfold float_emin; lia.
  - apply rnd_mono; unfold float_emin; lia.
Qed.

Lemma percent_full t : 0 < t -> percent t t = Ret float_100.
Proof.
  intro Ht. rewrite percent_units by lia. f_equal.
  assert (E : ratio_units t t = 2 ^ 52 * 2 ^ 1022).
  { unfold ratio_units, rnd_mant.
    assert (Ee : rnd_exp float_emin (t * 2 ^ 1074) t = -52).
    { unfold rnd_exp. rewrite Z.mul_comm, Z.div_mul by lia.
      rewrite Z.log2_pow2 by lia. reflexivity. }
    rewrite Ee. change (-52 - float_emin) with 1022.
    replace (t * 2 ^ 1074) with (2 ^ 52 * (t * 2 ^ 1022)).
    - rewrite rne_exact; [reflexivity|]. assert (0 < 2 ^ 1022) by reflexivity. nia.
    - change (2 ^ 1074) with (2 ^ 52 * 2 ^ 1022). ring. }
  rewrite E. vm_compute. reflexivity.
Qed.

(** ** [float(n)] for an integer *)

Lemma iter_xO p d : Z.pos (Pos.iter xO p d) = Z.pos p * 2 ^ Z.pos d.
Proof.
  induction d as [|d IH] using Pos.peano_ind.
  - cbn [Pos.iter]. change (2 ^ 1) with 2. lia.
  - rewrite Pos.iter_succ, Pos2Z.inj_xO, IH, Pos2Z.inj_succ, Z.pow_succ_r by lia. ring.
Qed.

Lemma round_int_rounding z :
  0 < z ->
  round_int z = pack (rnd_mant float_emin (z * 2 ^ 1074) 1)
                     (rnd_exp float_emin (z * 2 ^ 1074) 1).
Proof.
  intro Hz. destruct z as [|p|p]; [lia| |lia].
  unfold round_int, binary_normalize, binary_round, shl_align, float_prec, float_emax.
  change (Z.pos (digits2_pos p)) with (Zdigits2 (Z.pos p)).
  rewrite Zdigits2_log2, fexp_eq by lia.
  pose proof (Z.log2_nonneg (Z.pos p)) as HL.
  set (L := Z.log2 (Z.pos p)) in *.
  assert (Hemin : float_emin = -1074) by reflexivity.
  remember (Z.max (L + 1 + 0 - 53) float_emin) as e eqn:Ee0.
  assert (He : float_emin <= e) by lia.
  assert (Hcase : forall m, 0 < m -> Z.log2 m = L + (0 - Z.min e 0) ->
            0 < m /\ Z.min e 0 <= fexp 53 1024 (Zdigits2 m + Z.min e 0)
            \/ m = 0 /\ Z.min e 0 = float_emin /\ float_emin = float_emin).
  { intros m Hm Hlog. left. split; [assumption|].
    rewrite fexp_eq, Zdigits2_log2, Hlog by assumption. lia. }
  destruct (e - 0) as [|k|k] eqn:Ek.
  - replace 0 with (Z.min e 0) at 1 by lia.
    rewrite (binary_round_aux_spec _ _ _ (Z.pos p) 1 float_emin);
      [|lia|cbv [located]; lia|lia|lia|apply Hcase; [lia|fold L; lia]].
    replace (Z.min e 0) with 0 by lia. reflexivity.
  - replace 0 with (Z.min e 0) at 1 by lia.
    rewrite (binary_round_aux_spec _ _ _ (Z.pos p) 1 float_emin);
      [|lia|cbv [located]; lia|lia|lia|apply Hcase; [lia|fold L; lia]].
    replace (Z.min e 0) with 0 by lia. reflexivity.
  - replace e with (Z.min e 0) at 1 by lia.
    rewrite (binary_round_aux_spec _ _ _ (Z.pos (Pos.iter xO p k)) 1 float_emin);
      [|lia|cbv [located]; lia|lia|lia|
       apply Hcase; [lia|rewrite iter_xO, Z.log2_mul_pow2 by lia; fold L; lia]].
    rewrite iter_xO, <- Z.mul_assoc, <- Z.pow_add_r by lia.
    replace (Z.pos k + (Z.min e 0 - float_emin)) with 1074 by lia.
    reflexivity.
Qed.

Lemma round_int_finite z : 0 <= z < 2 ^ 63 -> float_is_inf (round_int z) = false.
Proof.
  intros [Hl Hu]. destruct (Z.eq_dec z 0) as [->|Hz]; [reflexivity|].
  rewrite round_int_rounding by lia.
  assert (R : rounded (rnd_mant float_emin (z * 2 ^ 1074) 1)
                      (rnd_exp float_emin (z * 2 ^ 1074) 1)).
  { apply rnd_rounded; try lia; assert (0 < 2 ^ 1074) by reflexivity; nia. }
  assert (He : rnd_exp float_emin (z * 2 ^ 1074) 1 < 971).
  { unfold rnd_exp. rewrite Z.div_1_r, Z.log2_mul_pow2 by lia.
    assert (Z.log2 z < 63) by (apply Z.log2_lt_pow2; lia).
    unfold float_emin. lia. }
  pose proof (pack_nonneg_finite _ _ R He) as Hf.
  destruct (pack _ _) as [[|]|[|]| |[|] p e]; try contradiction; reflexivity.
Qed.

Lemma split_from_length s :
  forall cur,
    (List.length (split_from cur s)
     <= match cur with [] => 0 | _ :: _ => 1 end + List.length s)%nat.
Proof.
  induction s as [|c s IH]; intro cur; cbn [split_from List.length].
  - destruct cur; cbn; lia.
  - destruct (is_space c).
    + destruct cur; [specialize (IH []); cbn in *; lia|].
      cbn [List.length]. specialize (IH []). cbn in IH. lia.
    + specialize (IH (c :: cur)). destruct cur; cbn in *; lia.
Qed.

Lemma float_gt0_nonzero x : float_gt0 x = true -> float_is_zero x = false.
Proof. destruct x as [[|]|[|]| |[|] p e]; cbn; congruence. Qed.


Ltac py_unfold :=
  cbv beta iota delta
    [bind lift ret raise try_except emit log_call pull_line
     requests_call client_chat time_time Notebook.ollama_chat_default].

Ltac py_simpl := py_unfold; cbn [out calls lines_read clock_reads fst snd].

(** ** The pull stream *)

Lemma install_model_200 d host model_name w resp :
  http d (pull_request host model_name) = Ret resp ->
  status_code resp = 200 ->
  install_model d host model_name w =
  match for_lines (iter_lines resp) (stream_error resp) install_line
          (after_post host model_name w) with
  | (Ret _, w') => (Ret (success_message (u "Successfully installed " ++ model_name)), w')
  | (Raise e, w') => (Ret (error_result (exn_msg e)), w')
  end.
Proof.
  intros Hhttp Hcode. unfold install_model. py_simpl. rewrite Hhttp, Hcode.
  cbn [Z.eqb Pos.eqb]. fold (installing model_name).
  fold (after_post host model_name w).
  destruct (for_lines _ _ _ _) as [[[]|e] w']; reflexivity.
Qed.

Lemma add_out_nil w : add_out [] w = w.
Proof. destruct w; unfold add_out; cbn. now rewrite app_nil_r. Qed.

Lemma add_out_app evs1 evs2 w : add_out evs2 (add_out evs1 w) = add_out (evs1 ++ evs2) w.
Proof. unfold add_out; cbn. now rewrite app_assoc. Qed.

(** Handling a line only prints: its outcome and its output do not depend on
    the world it runs in. *)
Lemma install_line_spec line w :
  install_line line w = (line_outcome line, add_out (line_events line) w).
Proof.
  unfold line_outcome, line_events, install_line. destruct w as [o c l k].
  destruct line as [|x line]; py_simpl; [now rewrite add_out_nil|].
  destruct (decode (x :: line)) as [text|e]; [|now rewrite add_out_nil].
  destruct (Json.loads text) as [data|e]; [|now rewrite add_out_nil].
  destruct (py_contains (u "status") data) as [[|]|e]; [| |now rewrite add_out_nil];
    [destruct (py_getitem data (u "status")) as [st|e]; [|now rewrite add_out_nil]|];
    (destruct (py_contains (u "completed") data) as [[|]|e];
     [destruct (py_contains (u "total") data) as [[|]|e];
      [destruct (py_getitem data (u "completed")) as [cv|e];
       [destruct (py_getitem data (u "total")) as [tv|e];
        [destruct (py_truediv cv tv) as [q|e]|]|]| |]| |]);
    cbn [out calls lines_read clock_reads fst snd fresh app];
    unfold add_out; cbn [out calls lines_read clock_reads];
    rewrite <- ?app_assoc, ?app_nil_r; reflexivity.
Qed.

Lemma add_lines_add_out n evs w : add_lines n (add_out evs w) = add_out evs (add_lines n w).
Proof. reflexivity. Qed.

Lemma for_lines_spec lines stop w :
  for_lines lines stop install_line w =
  (stream_outcome lines stop,
   add_lines (stream_reads lines) (add_out (stream_events lines) w)).
Proof.
  revert w. induction lines as [|line rest IH]; intros [o c l k].
  - destruct stop; cbn; unfold add_lines, add_out; cbn; now rewrite app_nil_r.
  - cbn [for_lines stream_outcome stream_reads stream_events].
    unfold bind at 1. cbn [pull_line]. unfold bind at 1.
    rewrite install_line_spec.
    destruct (line_outcome line) as [[]|e].
    + rewrite IH. unfold add_lines, add_out; cbn.
      rewrite <- app_assoc, Nat.add_succ_r. reflexivity.
    + unfold add_lines, add_out; cbn. now rewrite app_nil_r.
Qed.

(** The whole of [install_model] on a 200 answer. *)
Lemma install_model_stream d host model_name w resp :
  http d (pull_request host model_name) = Ret resp ->
  status_code resp = 200 ->
  install_model d host model_name w =
  (Ret match stream_outcome (iter_lines resp) (stream_error resp) with
       | Ret _ => success_message (u "Successfully installed " ++ model_name)
       | Raise e => error_result (exn_msg e)
       end,
   add_lines (stream_reads (iter_lines resp))
     (add_out (stream_events (iter_lines resp)) (after_post host model_name w))).
Proof.
  intros Hhttp Hcode. rewrite (install_model_200 _ _ _ _ _ Hhttp Hcode).
  rewrite for_lines_spec. now destruct (stream_outcome _ _) as [[]|e].
Qed.

Lemma install_model_not_200 d host model_name w resp :
  http d (pull_request host model_name) = Ret resp ->
  status_code resp <> 200 ->
  install_model d host model_name w =
  (Ret (error_result (u "HTTP " ++ str_of_int (status_code resp))),
   after_post host model_name w).
Proof.
  intros Hhttp Hcode. unfold install_model. py_simpl. rewrite Hhttp.
  destruct (Z.eqb_spec (status_code resp) 200) as [E|_]; [contradiction|].
  reflexivity.
Qed.

(** C6: a non-200 answer to the pull request yields [Error("HTTP <code>")] at
    once: no line of the stream is read and nothing but the opening
    announcement is printed. *)
Theorem install_model_non_200 d host model_name w resp :
  http d (pull_request host model_name) = Ret resp ->
  status_code resp <> 200 ->
  install_model d host model_name w =
  (Ret (error_result (u "HTTP " ++ str_of_int (status_code resp))),
   after_post host model_name w)
  /\ lines_read (after_post host model_name w) = lines_read w
  /\ out (after_post host model_name w) = out w ++ [installing model_name].
Proof.
  intros Hhttp Hcode. split; [|split; reflexivity].
  now apply install_model_not_200.
Qed.

Lemma install_model_non_200_witness :
  http (serving pull_404) (pull_request default_host model_llama) = Ret pull_404 /\
  status_code pull_404 <> 200 /\
  install_model (serving pull_404) default_host model_llama fresh =
  (Ret (error_result (u "HTTP 404")), after_post default_host model_llama fresh).
Proof.
  split; [reflexivity|]. split; [discriminate|].
  apply (install_model_non_200 (serving pull_404) default_host model_llama fresh pull_404);
    [reflexivity|discriminate].
Defined.

(** *** Blank lines *)

Lemma line_blank : line_outcome [] = Ret tt /\ line_events [] = [].
Proof. split; reflexivity. Qed.

Lemma stream_filter_nonblank lines stop :
  stream_outcome (filter nonblank lines) stop = stream_outcome lines stop /\
  stream_events (filter nonblank lines) = stream_events lines.
Proof.
  induction lines as [|[|x line] rest [IHo IHe]]; [split; reflexivity| |].
  - cbn [filter nonblank]. cbn. now split.
  - cbn [filter nonblank stream_outcome stream_events].
    destruct (line_outcome (x :: line)); [|now split].
    rewrite IHo, IHe. now split.
Qed.

Lemma stream_all_blank lines :
  forallb (fun l => negb (nonblank l)) lines = true ->
  stream_outcome lines None = Ret tt /\ stream_events lines = []
  /\ stream_reads lines = List.length lines.
Proof.
  induction lines as [|[|x line] rest IH]; cbn [forallb nonblank negb andb];
    intro H; [repeat split| |discriminate].
  destruct (IH H) as (Ho & He & Hr). cbn. rewrite Ho, He, Hr. repeat split.
Qed.

(** C10: blank lines are skipped before anything is decoded.  Handling one
    does nothing, so the result of [install_model] and what it prints are
    those of the stream without its blank lines; and a 200 answer of blank
    lines only, cleanly closed, ends in Success with nothing printed after
    the opening announcement. *)
Theorem install_model_blank_lines d host model_name w resp :
  http d (pull_request host model_name) = Ret resp ->
  status_code resp = 200 ->
  let run := install_model d host model_name w in
  let kept := filter nonblank (iter_lines resp) in
  (forall w0, install_line [] w0 = (Ret tt, w0))
  /\ fst run =
     Ret match stream_outcome kept (stream_error resp) with
         | Ret _ => success_message (u "Successfully installed " ++ model_name)
         | Raise e => error_result (exn_msg e)
         end
  /\ out (snd run) = out w ++ installing model_name :: stream_events kept
  /\ (stream_error resp = None -> kept = [] ->
      fst run = Ret (success_message (u "Successfully installed " ++ model_name))
      /\ out (snd run) = out w ++ [installing model_name]).
Proof.
  intros Hhttp Hcode run kept. subst run kept.
  rewrite (install_model_stream _ _ _ _ _ Hhttp Hcode). cbn [fst snd].
  destruct (stream_filter_nonblank (iter_lines resp) (stream_error resp)) as [Ho He].
  rewrite Ho, He. split; [reflexivity|]. split; [reflexivity|].
  assert (Hout : out (add_lines (stream_reads (iter_lines resp))
                  (add_out (stream_events (iter_lines resp))
                     (after_post host model_name w)))
                 = out w ++ installing model_name :: stream_events (iter_lines resp)).
  { cbn. now rewrite <- app_assoc. }
  split; [exact Hout|].
  intros Hclean Hnil. rewrite Hnil in Ho, He. rewrite Hout, <- Ho, <- He, Hclean.
  split; reflexivity.
Qed.

Lemma install_model_blank_lines_witness :
  let resp := stream_of [[]; []; []] in
  let run := install_model (serving resp) default_host model_llama fresh in
  fst run = Ret (success_message (u "Successfully installed llama3.2:3b"))
  /\ out (snd run) = [installing model_llama]
  /\ lines_read (snd run) = 3%nat.
Proof.
  intros resp run.
  destruct (install_model_blank_lines (serving resp) default_host
              model_llama fresh resp eq_refl eq_refl)
    as (_ & _ & _ & H).
  destruct (H eq_refl eq_refl) as [Hr Ho].
  split; [exact Hr|]. split; [exact Ho|]. reflexivity.
Defined.

(** *** Lines that raise *)

Lemma stream_app pre rest stop :
  stream_outcome pre None = Ret tt ->
  stream_outcome (pre ++ rest) stop = stream_outcome rest stop
  /\ stream_events (pre ++ rest) = stream_events pre ++ stream_events rest
  /\ stream_reads (pre ++ rest) = (List.length pre + stream_reads rest)%nat.
Proof.
  induction pre as [|line pre IH]; cbn [app stream_outcome stream_events stream_reads];
    [repeat split|].
  destruct (line_outcome line) as [[]|e]; [|discriminate].
  intro H. destruct (IH H) as (Ho & He & Hr). rewrite Ho, He, Hr, app_assoc.
  repeat split.
Qed.

Lemma malformed_raises line :
  malformed line -> exists e, line_outcome line = Raise e /\ line_events line = [].
Proof.
  intros [Hne H]. unfold line_outcome, line_events, install_line.
  destruct line as [|x line]; [contradiction|]. py_simpl.
  destruct H as [(e & H)|(text & e & H & Hl)]; rewrite H; [now exists e|].
  rewrite Hl. now exists e.
Qed.

(** C2, as the code has it: a malformed line ends the stream.  What the
    lines before it printed stays printed, no line after it is read, and the
    operation ends in Error, with the text of the decoding exception as its
    message; nothing is raised. *)
Theorem install_model_malformed_line d host model_name w resp pre bad post :
  http d (pull_request host model_name) = Ret resp ->
  status_code resp = 200 ->
  iter_lines resp = pre ++ bad :: post ->
  stream_outcome pre None = Ret tt ->
  malformed bad ->
  exists message,
    install_model d host model_name w =
    (Ret (error_result message),
     add_lines (S (List.length pre))
       (add_out (stream_events pre) (after_post host model_name w))).
Proof.
  intros Hhttp Hcode Hlines Hpre Hbad.
  rewrite (install_model_stream _ _ _ _ _ Hhttp Hcode), Hlines.
  destruct (stream_app pre (bad :: post) (stream_error resp) Hpre) as (Ho & He & Hr).
  destruct (malformed_raises _ Hbad) as (e & Hbo & Hbe).
  rewrite Ho, He, Hr. cbn [stream_outcome stream_events stream_reads].
  rewrite Hbo, Hbe, app_nil_r, Nat.add_1_r. now exists (exn_msg e).
Qed.

Lemma install_model_malformed_line_witness :
  malformed (b "not json") /\
  exists message,
    install_model (serving (stream_of lines_with_garbage)) default_host model_llama fresh =
    (Ret (error_result message),
     add_lines 2 (add_out [PrintStatus (PStr (u "downloading"))]
                    (after_post default_host model_llama fresh))).
Proof.
  assert (Hbad : malformed (b "not json")).
  { split; [discriminate|]. right. do 2 eexists. split; reflexivity. }
  split; [exact Hbad|].
  apply (install_model_malformed_line (serving (stream_of lines_with_garbage))
           default_host model_llama fresh (stream_of lines_with_garbage)
           [js "{'status':'downloading'}"] (b "not json")
           [js "{'completed':50,'total':100}"]);
    [reflexivity|reflexivity|reflexivity|reflexivity|exact Hbad].
Defined.

(** C2, as the spec states it, fails: with one malformed line between two
    valid ones the operation ends in Error, and the progress report after the
    malformed line is never read nor printed, although the same two valid
    lines on their own print both events and end in Success. *)
Lemma install_model_skips_malformed_counterexample :
  let run := install_model (serving (stream_of lines_with_garbage))
               default_host model_llama fresh in
  let clean := install_model (serving (stream_of lines_clean))
                 default_host model_llama fresh in
  (exists result, fst run = Ret result /\ is_error result = true)
  /\ out (snd run) = [installing model_llama; PrintStatus (PStr (u "downloading"))]
  /\ lines_read (snd run) = 2%nat
  /\ fst clean = Ret (success_message (u "Successfully installed llama3.2:3b"))
  /\ out (snd clean) = [installing model_llama; PrintStatus (PStr (u "downloading"));
                        PrintProgress float_50].
Proof.
  split; [eexists; split; [vm_compute; reflexivity|reflexivity]|].
  vm_compute. repeat split.
Qed.

(** C1, at a report whose total is zero: the division raises, the handler
    of [install_model] turns that into Error, and the line after it, the
    final phase, is never read. *)
Theorem install_model_zero_total :
  let run := install_model (serving (stream_of lines_with_zero_total))
               default_host model_llama fresh in
  fst run = Ret (error_result (u "division by zero"))
  /\ out (snd run) = [installing model_llama; PrintStatus (PStr (u "pulling manifest"))]
  /\ lines_read (snd run) = 1%nat.
Proof. vm_compute. repeat split. Qed.

(** ** Progress percentages *)

Lemma progress_of_app a b : progress_of (a ++ b) = progress_of a ++ progress_of b.
Proof. apply flat_map_app. Qed.

Lemma report_line line c t :
  reports line c t -> 0 <= c <= t -> 0 < t ->
  line_outcome line = Ret tt
  /\ progress_of (line_events line) = [percent_of_units (ratio_units c t)].
Proof.
  intros (text & fields & Hd & Hl & Hc & Ht) Hb Hpos.
  destruct (int_true_divide_ratio c t Hb Hpos) as (q & Hq & Hf & Hu).
  assert (Hp : float_mul q float_100 = percent_of_units (ratio_units c t)).
  { rewrite float_mul_100 by assumption. now rewrite Hu. }
  unfold line_outcome, line_events, install_line.
  destruct line as [|x line].
  { cbn in Hd. injection Hd as <-. discriminate Hl. }
  py_simpl. rewrite Hd, Hl. cbn [py_contains py_getitem fst snd].
  destruct (dict_get fields (u "status")) as [st|];
    rewrite Hc, Ht; cbn [py_truediv as_number]; rewrite Hq;
    cbn [out fresh app progress_of flat_map fst snd]; rewrite Hp; split; reflexivity.
Qed.

Lemma reports_stream lines cs t :
  0 < t -> Forall (fun c => 0 <= c <= t) cs ->
  Forall2 (fun line c => reports line c t) lines cs ->
  stream_outcome lines None = Ret tt
  /\ stream_reads lines = List.length lines
  /\ progress_of (stream_events lines) =
     map (fun c => percent_of_units (ratio_units c t)) cs.
Proof.
  intros Ht Hb H. induction H as [|line c lines cs Hr _ IH]; [repeat split|].
  inversion Hb as [|? ? Hc Hcs]; subst.
  destruct (report_line line c t Hr Hc Ht) as [Ho He].
  destruct (IH Hcs) as (IHo & IHr & IHe).
  cbn [stream_outcome stream_reads stream_events map List.length].
  rewrite Ho, IHo, IHr, progress_of_app, He, IHe. repeat split.
Qed.

Lemma percents_ascending cs t :
  0 < t -> Forall (fun c => 0 <= c <= t) cs -> ascending Z.leb cs = true ->
  ascending float_le (map (fun c => percent_of_units (ratio_units c t)) cs) = true.
Proof.
  intros Ht Hb. induction cs as [|c1 [|c2 cs] IH]; [reflexivity|reflexivity|].
  intro Hs. change (ascending Z.leb (c1 :: c2 :: cs))
    with ((c1 <=? c2) && ascending Z.leb (c2 :: cs)) in Hs.
  apply andb_prop in Hs. destruct Hs as [H12 Hs]. apply Z.leb_le in H12.
  inversion Hb as [|? ? Hc1 Hb']; subst.
  change (ascending float_le (map (fun c => percent_of_units (ratio_units c t)) (c1 :: c2 :: cs)))
    with (float_le (percent_of_units (ratio_units c1 t)) (percent_of_units (ratio_units c2 t))
          && ascending float_le (map (fun c => percent_of_units (ratio_units c t)) (c2 :: cs))).
  rewrite (IH Hb' Hs), andb_true_r.
  apply percent_of_units_mono, ratio_units_mono; lia.
Qed.

(** C7: for a 200 stream, cleanly closed, whose lines report non-decreasing
    [completed] counts between 0 and one fixed [total > 0], [install_model]
    prints one percentage per line, in order: the float [completed / total *
    100] as the interpreter computes it; the percentages printed never
    decrease; a last report with [completed = total] prints exactly 100.0;
    and the operation ends in Success. *)
Theorem install_model_progress d host model_name w resp cs t :
  http d (pull_request host model_name) = Ret resp ->
  status_code resp = 200 ->
  stream_error resp = None ->
  0 < t ->
  Forall (fun c => 0 <= c <= t) cs ->
  ascending Z.leb cs = true ->
  Forall2 (fun line c => reports line c t) (iter_lines resp) cs ->
  let run := install_model d host model_name w in
  exists ps,
    Forall2 (fun c p => percent c t = Ret p) cs ps
    /\ progress_of (out (snd run)) = progress_of (out w) ++ ps
    /\ ascending float_le ps = true
    /\ (forall cs', cs = cs' ++ [t] -> exists ps', ps = ps' ++ [float_100])
    /\ fst run = Ret (success_message (u "Successfully installed " ++ model_name)).
Proof.
  intros Hhttp Hcode Hclean Ht Hb Hs Hr run. subst run.
  rewrite (install_model_stream _ _ _ _ _ Hhttp Hcode), Hclean.
  destruct (reports_stream _ _ _ Ht Hb Hr) as (Ho & _ & He).
  rewrite Ho. cbn [fst snd].
  exists (map (fun c => percent_of_units (ratio_units c t)) cs).
  split; [|split; [|split; [|split]]].
  - clear Hs Hr He. induction Hb as [|c cs Hc _ IH]; constructor; [|exact IH].
    now apply percent_units.
  - cbn [out add_lines add_out after_post]. rewrite !progress_of_app, He.
    cbn [progress_of flat_map installing app]. now rewrite app_nil_r.
  - now apply percents_ascending.
  - intros cs' ->. rewrite map_app. eexists. f_equal. cbn [map]. f_equal.
    pose proof (percent_full t Ht) as Hfull. rewrite percent_units in Hfull by lia.
    now injection Hfull.
  - reflexivity.
Qed.

Lemma install_model_progress_witness :
  let run := install_model (serving (stream_of lines_quarters))
               default_host model_llama fresh in
  progress_of (out (snd run)) = [round_int 25; float_50; float_100]
  /\ ascending float_le [round_int 25; float_50; float_100] = true
  /\ fst run = Ret (success_message (u "Successfully installed llama3.2:3b")).
Proof.
  intro run.
  assert (Hr : Forall2 (fun line c => reports line c 100) lines_quarters [25; 50; 100]).
  { repeat constructor; do 2 eexists; repeat split; vm_compute; reflexivity. }
  destruct (install_model_progress (serving (stream_of lines_quarters)) default_host
              model_llama fresh (stream_of lines_quarters) [25; 50; 100] 100
              eq_refl eq_refl eq_refl eq_refl
              ltac:(repeat constructor; discriminate) eq_refl Hr)
    as (ps & Hps & Hout & Hasc & _ & Hres).
  split; [|split; [|exact Hres]].
  - vm_compute. reflexivity.
  - vm_compute. reflexivity.
Defined.

(** ** The probe and the lister *)


Ltac returned := eexists; split; reflexivity.

Ltac handled e :=
  destruct (isinstance e "requests.exceptions.ConnectionError");
  [returned|destruct (isinstance e "requests.exceptions.Timeout"); returned].

Lemma check_connection_returns d host w :
  returns_tagged (check_connection d host w).
Proof.
  unfold returns_tagged, check_connection. py_simpl.
  destruct (http d (tags_request host 5)) as [resp|e]; [|handled e].
  destruct (status_code resp =? 200); [|returned].
  destruct (json resp) as [body|e]; [|handled e].
  destruct (py_get body (u "models") (PList [])) as [models|e]; [|handled e].
  destruct (py_len models) as [n|e]; [|handled e].
  destruct (py_iter models) as [items|e]; [|handled e].
  destruct (comprehension _ items) as [names|e]; [returned|handled e].
Qed.






Lemma list_models_returns d host w : returns (list_models d host w).
Proof.
  unfold returns, list_models. py_simpl.
  destruct (http d (tags_request host 10)) as [resp|e]; [|eexists; reflexivity].
  destruct (status_code resp =? 200); [|eexists; reflexivity].
  destruct (json resp) as [body|e]; [|eexists; reflexivity].
  destruct (py_get body (u "models") (PList [])); eexists; reflexivity.
Qed.

(** C9: the lister returns the value under ['models'] of a 200 answer as it
    is, records in order, and the empty list when the body has no such key;
    on any other status and on any exception of the transport or of the body
    decoding it returns the empty list; it always returns. *)
Theorem list_models_classifies d host w :
  (forall resp body models,
      http d (tags_request host 10) = Ret resp ->
      status_code resp = 200 ->
      json resp = Ret (PDict body) ->
      dict_get body (u "models") = Some models ->
      fst (list_models d host w) = Ret models)
  /\ (forall resp body,
      http d (tags_request host 10) = Ret resp ->
      status_code resp = 200 ->
      json resp = Ret (PDict body) ->
      dict_get body (u "models") = None ->
      fst (list_models d host w) = Ret (PList []))
  /\ (forall resp,
      http d (tags_request host 10) = Ret resp ->
      status_code resp <> 200 ->
      list_models d host w = (Ret (PList []),
                              {| out := out w;
                                 calls := calls w ++ [HttpCall (tags_request host 10)];
                                 lines_read := lines_read w;
                                 clock_reads := clock_reads w |}))
  /\ (forall e,
      http d (tags_request host 10) = Raise e ->
      fst (list_models d host w) = Ret (PList []))
  /\ (forall resp e,
      http d (tags_request host 10) = Ret resp ->
      json resp = Raise e ->
      fst (list_models d host w) = Ret (PList []))
  /\ returns (list_models d host w).
Proof.
  split; [|split; [|split; [|split; [|split; [|apply list_models_returns]]]]];
    unfold list_models; py_simpl.
  - intros resp body models Hhttp Hcode Hjson Hm.
    rewrite Hhttp, Hcode, Hjson. cbn [Z.eqb Pos.eqb py_get fst]. now rewrite Hm.
  - intros resp body Hhttp Hcode Hjson Hm.
    rewrite Hhttp, Hcode, Hjson. cbn [Z.eqb Pos.eqb py_get fst]. now rewrite Hm.
  - intros resp Hhttp Hcode. rewrite Hhttp.
    destruct (Z.eqb_spec (status_code resp) 200); [contradiction|reflexivity].
  - intros e Hhttp. now rewrite Hhttp.
  - intros resp e Hhttp Hjson. rewrite Hhttp, Hjson.
    now destruct (status_code resp =? 200).
Qed.

Lemma list_models_classifies_witness :
  fst (list_models (serving (plain_response 200 (Ret (tags_body two_models))))
         default_host fresh) = Ret two_models
  /\ fst (list_models (serving (plain_response 200 (Ret (tags_body (PList [])))))
            default_host fresh) = Ret (PList [])
  /\ fst (list_models (serving (plain_response 500 (Raise not_json)))
            default_host fresh) = Ret (PList [])
  /\ fst (list_models (failing connection_refused) default_host fresh) = Ret (PList []).
Proof.
  split; [|split; [|split]].
  - destruct (list_models_classifies
                (serving (plain_response 200 (Ret (tags_body two_models))))
                default_host fresh) as (H & _).
    apply (H (plain_response 200 (Ret (tags_body two_models)))
             [(u "models", two_models)] two_models); reflexivity.
  - destruct (list_models_classifies
                (serving (plain_response 200 (Ret (tags_body (PList [])))))
                default_host fresh) as (H & _).
    apply (H (plain_response 200 (Ret (tags_body (PList []))))
             [(u "models", PList [])] (PList [])); reflexivity.
  - destruct (list_models_classifies
                (serving (plain_response 500 (Raise not_json))) default_host fresh)
      as (_ & _ & H & _).
    rewrite (H (plain_response 500 (Raise not_json)) eq_refl); [reflexivity|discriminate].
  - destruct (list_models_classifies (failing connection_refused) default_host fresh)
      as (_ & _ & _ & H & _).
    apply (H connection_refused); reflexivity.
Defined.

(** ** Uniform results *)

Lemma chat_returns d host model message stream w :
  exists v w', chat d host model message stream w = (Ret v, w') /\ chat_result v
               /\ clock_reads w' = clock_reads w.
Proof.
  unfold chat. py_simpl.
  destruct (ollama_chat d _) as [response|e];
    [|do 2 eexists; split; [reflexivity|split; [constructor|reflexivity]]].
  destruct stream; [do 2 eexists; split; [reflexivity|split; [constructor|reflexivity]]|].
  destruct (py_getitem response (u "message")) as [msg|e];
    [|do 2 eexists; split; [reflexivity|split; [constructor|reflexivity]]].
  destruct (py_getitem msg (u "content")) as [content|e];
    do 2 eexists; (split; [reflexivity|split; [constructor|reflexivity]]).
Qed.

Lemma chat_result_tagged v : chat_result v -> tagged v = true.
Proof. destruct 1; reflexivity. Qed.

Lemma benchmark_model_returns d host model prompt w :
  returns_tagged (benchmark_model d host model prompt w).
Proof.
  unfold returns_tagged, benchmark_model.
  unfold try_except, bind at 1, time_time. unfold bind at 1.
  match goal with |- context [chat d host model prompt false ?w1] =>
    destruct (chat_returns d host model prompt false w1) as (v & w' & -> & Hv & _)
  end.
  py_simpl. destruct Hv as [handle|content|message];
    cbn -[py_truediv py_split py_len float_gt0 float_sub]; [returned| |returned].
  destruct (py_split content) as [words|e]; [|returned].
  destruct (py_len words) as [wc|e]; [|returned].
  destruct (py_len content) as [len|e]; [|returned].
  destruct (float_gt0 _); [|returned].
  destruct (py_truediv _ _) as [q|e]; returned.
Qed.

Lemma list_models_handles d host w e :
  lister_raises d host e -> fst (list_models d host w) = Ret (PList []).
Proof.
  unfold list_models. py_simpl.
  intros [Hhttp|(resp & Hhttp & Hcode & Hjson)].
  - now rewrite Hhttp.
  - now rewrite Hhttp, Hcode, Hjson.
Qed.

(** C4, as the code has it: the probe, install, remove, chat and benchmark
    each return a dict tagged by ['status'] whatever the transport does.  The
    lister returns too, but builds no tagged result: from a 200 answer whose
    body is an object it returns the value under ['models'] as it is,
    whatever that value is, and the empty list when the key is absent; on a
    200 answer whose body is no object, on any other status and on any
    exception it returns the empty list, which carries no tag and no
    message. *)
Theorem operations_return d host model message stream w :
  returns_tagged (check_connection d host w)
  /\ returns_tagged (install_model d host model w)
  /\ returns_tagged (remove_model d host model w)
  /\ returns_tagged (chat d host model message stream w)
  /\ returns_tagged (benchmark_model d host model message w)
  /\ returns (list_models d host w)
  /\ (forall resp body v,
      http d (tags_request host 10) = Ret resp ->
      status_code resp = 200 ->
      json resp = Ret (PDict body) ->
      dict_get body (u "models") = Some v ->
      fst (list_models d host w) = Ret v)
  /\ (forall resp body,
      http d (tags_request host 10) = Ret resp ->
      status_code resp = 200 ->
      json resp = Ret (PDict body) ->
      dict_get body (u "models") = None ->
      fst (list_models d host w) = Ret (PList []))
  /\ (forall resp body,
      http d (tags_request host 10) = Ret resp ->
      status_code resp = 200 ->
      json resp = Ret body ->
      is_dict body = false ->
      fst (list_models d host w) = Ret (PList []))
  /\ (forall resp,
      http d (tags_request host 10) = Ret resp ->
      status_code resp <> 200 ->
      fst (list_models d host w) = Ret (PList []))
  /\ (forall e,
      lister_raises d host e ->
      fst (list_models d host w) = Ret (PList []))
  /\ tagged (PList []) = false.
Proof.
  split; [apply check_connection_returns|].
  split.
  { unfold returns_tagged.
    destruct (http d (pull_request host model)) as [resp|e] eqn:Hhttp.
    - destruct (Z.eq_dec (status_code resp) 200) as [Hcode|Hcode].
      + rewrite (install_model_stream _ _ _ _ _ Hhttp Hcode). cbn [fst].
        destruct (stream_outcome _ _); eexists; split; reflexivity.
      + rewrite (install_model_not_200 _ _ _ w _ Hhttp Hcode).
        eexists; split; reflexivity.
    - unfold install_model. py_simpl. rewrite Hhttp. eexists; split; reflexivity. }
  split.
  { unfold returns_tagged, remove_model. py_simpl.
    destruct (http d _) as [resp|e]; [|eexists; split; reflexivity].
    destruct (status_code resp =? 200); eexists; split; reflexivity. }
  split.
  { destruct (chat_returns d host model message stream w) as (v & w' & Hrun & Hv & _).
    exists v. rewrite Hrun. split; [reflexivity|now apply chat_result_tagged]. }
  split; [apply benchmark_model_returns|].
  split; [apply list_models_returns|].
  split; [|split; [|split; [|split; [|split; [apply list_models_handles|reflexivity]]]]];
    unfold list_models; py_simpl.
  - intros resp body v Hhttp Hcode Hjson Hm.
    rewrite Hhttp, Hcode, Hjson. cbn [Z.eqb Pos.eqb py_get fst]. now rewrite Hm.
  - intros resp body Hhttp Hcode Hjson Hm.
    rewrite Hhttp, Hcode, Hjson. cbn [Z.eqb Pos.eqb py_get fst]. now rewrite Hm.
  - intros resp body Hhttp Hcode Hjson Hd.
    rewrite Hhttp, Hcode, Hjson. cbn [Z.eqb Pos.eqb fst].
    destruct body; try reflexivity. discriminate.
  - intros resp Hhttp Hcode. rewrite Hhttp.
    destruct (Z.eqb_spec (status_code resp) 200); [contradiction|reflexivity].
Qed.

Lemma operations_return_witness :
  returns_tagged (check_connection greeting default_host fresh)
  /\ returns_tagged (install_model greeting default_host model_llama fresh)
  /\ returns_tagged (remove_model greeting default_host model_llama fresh)
  /\ returns_tagged (chat greeting default_host model_llama default_prompt false fresh)
  /\ returns_tagged (benchmark_model greeting default_host model_llama default_prompt fresh)
  /\ fst (list_models (serving (plain_response 200 (Ret (tags_body two_models))))
            default_host fresh) = Ret two_models
  /\ fst (list_models (serving (plain_response 200 (Ret (tags_body PNone))))
            default_host fresh) = Ret PNone
  /\ fst (list_models (serving (plain_response 200 (Ret (PDict []))))
            default_host fresh) = Ret (PList [])
  /\ fst (list_models (serving (plain_response 200 (Ret (PList []))))
            default_host fresh) = Ret (PList [])
  /\ fst (list_models (serving (plain_response 500 (Raise not_json)))
            default_host fresh) = Ret (PList [])
  /\ fst (list_models (failing connection_refused) default_host fresh) = Ret (PList [])
  /\ fst (list_models (serving (plain_response 200 (Raise not_json)))
            default_host fresh) = Ret (PList []).
Proof.
  pose proof (operations_return greeting default_host model_llama default_prompt
                false fresh) as (H1 & H2 & H3 & H4 & H5 & _).
  do 5 (split; [assumption|]). clear.
  split; [|split; [|split; [|split; [|split; [|split]]]]].
  - destruct (operations_return
                (serving (plain_response 200 (Ret (tags_body two_models))))
                default_host model_llama default_prompt false fresh)
      as (_ & _ & _ & _ & _ & _ & H & _).
    apply (H (plain_response 200 (Ret (tags_body two_models)))
             [(u "models", two_models)]); reflexivity.
  - destruct (operations_return
                (serving (plain_response 200 (Ret (tags_body PNone))))
                default_host model_llama default_prompt false fresh)
      as (_ & _ & _ & _ & _ & _ & H & _).
    apply (H (plain_response 200 (Ret (tags_body PNone)))
             [(u "models", PNone)]); reflexivity.
  - destruct (operations_return
                (serving (plain_response 200 (Ret (PDict []))))
                default_host model_llama default_prompt false fresh)
      as (_ & _ & _ & _ & _ & _ & _ & H & _).
    apply (H (plain_response 200 (Ret (PDict []))) []); reflexivity.
  - destruct (operations_return
                (serving (plain_response 200 (Ret (PList []))))
                default_host model_llama default_prompt false fresh)
      as (_ & _ & _ & _ & _ & _ & _ & _ & H & _).
    apply (H (plain_response 200 (Ret (PList []))) (PList [])); reflexivity.
  - destruct (operations_return
                (serving (plain_response 500 (Raise not_json)))
                default_host model_llama default_prompt false fresh)
      as (_ & _ & _ & _ & _ & _ & _ & _ & _ & H & _).
    apply (H (plain_response 500 (Raise not_json))); [reflexivity|discriminate].
  - destruct (operations_return (failing connection_refused)
                default_host model_llama default_prompt false fresh)
      as (_ & _ & _ & _ & _ & _ & _ & _ & _ & _ & H & _).
    apply (H connection_refused). left. reflexivity.
  - destruct (operations_return
                (serving (plain_response 200 (Raise not_json)))
                default_host model_llama default_prompt false fresh)
      as (_ & _ & _ & _ & _ & _ & _ & _ & _ & _ & H & _).
    apply (H not_json). right. eexists. repeat split; reflexivity.
Defined.

(** C4, as the spec states it, fails: the lister hands back the list of the
    daemon on success and the empty list on failure, neither of which is a
    result tagged by ['status']; the failure leaves no Error to read. *)
Lemma operations_uniform_counterexample :
  fst (list_models (serving (plain_response 200 (Ret (tags_body two_models))))
         default_host fresh) = Ret two_models
  /\ tagged two_models = false
  /\ fst (list_models (failing connection_refused) default_host fresh) = Ret (PList [])
  /\ tagged (PList []) = false
  /\ ~ returns_tagged (list_models (failing connection_refused) default_host fresh).
Proof.
  repeat split. intros (v & Hv & Ht). cbn in Hv. injection Hv as <-. discriminate.
Qed.

(** ** Blank chat messages *)

Lemma lstrip_spaces s : forallb is_space s = true -> lstrip s = [].
Proof.
  induction s as [|c s IH]; [reflexivity|]. cbn [forallb lstrip].
  intros [Hc Hs]%andb_prop. rewrite Hc. now apply IH.
Qed.

Lemma strip_spaces s : forallb is_space s = true -> str_strip s = [].
Proof. intro H. unfold str_strip. now rewrite (lstrip_spaces s H). Qed.

(** C3, as the code has it: for a message that is empty or white space only,
    the chat cell of the notebook returns the text asking for a message and
    touches nothing, no network call included; [OllamaManager.chat] does not
    look at the message and makes its one call of the client as for any
    other message. *)
Theorem chat_blank_message d host model message stream w :
  forallb is_space message = true ->
  Notebook.chat_with_ollama d model message w =
    (Ret (PStr (u "Please enter a message.")), w)
  /\ calls (snd (chat d host model message stream w)) =
     calls w ++ [ChatCall (chat_request_of host model message stream)].
Proof.
  intro H. split.
  - unfold Notebook.chat_with_ollama. now rewrite (strip_spaces _ H).
  - unfold chat. py_simpl.
    destruct (ollama_chat d _) as [response|e]; [|reflexivity].
    destruct stream; [reflexivity|].
    destruct (py_getitem response (u "message")) as [msg|e]; [|reflexivity].
    destruct (py_getitem msg (u "content")); reflexivity.
Qed.

Lemma chat_blank_message_witness :
  forallb is_space (u "   ") = true
  /\ Notebook.chat_with_ollama greeting model_llama (u "   ") fresh =
     (Ret (PStr (u "Please enter a message.")), fresh)
  /\ calls (snd (chat greeting default_host model_llama (u "   ") false fresh)) =
     [ChatCall (chat_request_of default_host model_llama (u "   ") false)].
Proof.
  split; [reflexivity|].
  apply (chat_blank_message greeting default_host model_llama (u "   ") false fresh).
  reflexivity.
Defined.

(** C3, as the spec states it, fails on [OllamaManager.chat]: the empty
    message is sent to the daemon, and the result is the daemon's answer,
    a Success. *)
Lemma chat_validates_counterexample :
  let run := chat greeting default_host model_llama [] false fresh in
  fst run = Ret (PDict [(u "status", PStr (u "success"));
                        (u "response", PStr (u "Hello!"))])
  /\ calls (snd run) = [ChatCall (chat_request_of default_host model_llama [] false)]
  /\ calls (snd run) <> calls fresh.
Proof. repeat split. discriminate. Qed.

(** ** The benchmark *)

Lemma chat_answered d host model message w answer content :
  ollama_chat d (chat_request_of host model message false) = Ret answer ->
  chat_content answer = Ret content ->
  chat d host model message false w =
  (Ret (PDict [(u "status", PStr (u "success")); (u "response", content)]),
   {| out := out w;
      calls := calls w ++ [ChatCall (chat_request_of host model message false)];
      lines_read := lines_read w; clock_reads := clock_reads w |}).
Proof.
  intros Hchat Hcontent. unfold chat. py_simpl. rewrite Hchat. cbn [fst snd].
  unfold chat_content in Hcontent.
  destruct (py_getitem answer (u "message")) as [msg|e]; [|discriminate].
  cbn [fst snd]. rewrite Hcontent. reflexivity.
Qed.

Lemma chat_failed d host model message stream w e :
  ollama_chat d (chat_request_of host model message stream) = Raise e ->
  fst (chat d host model message stream w) = Ret (error_result (exn_msg e)).
Proof. intro H. unfold chat. py_simpl. now rewrite H. Qed.

(** C8: when the chat succeeds with a text, the benchmark returns the
    length of the text in characters, the number of its words as
    [str.split()] counts them, and as throughput [word_count /
    response_time] when the elapsed time is above zero, the integer 0
    otherwise; an elapsed time of zero gives 0, not an error.  When the chat
    returns an Error, the benchmark returns that same result. *)
Theorem benchmark_model_measures d host model prompt w :
  let elapsed := float_sub (clock d (S (clock_reads w))) (clock d (clock_reads w)) in
  (forall answer text,
      ollama_chat d (chat_request_of host model prompt false) = Ret answer ->
      chat_content answer = Ret (PStr text) ->
      Z.of_nat (List.length text) < 2 ^ 63 ->
      fst (benchmark_model d host model prompt w) =
        Ret (benchmark_result model elapsed text)
      /\ (float_is_zero elapsed = true ->
          py_getitem (benchmark_result model elapsed text) (u "words_per_second")
          = Ret (PInt 0)))
  /\ (forall e,
      ollama_chat d (chat_request_of host model prompt false) = Raise e ->
      fst (benchmark_model d host model prompt w) = Ret (error_result (exn_msg e))
      /\ fst (benchmark_model d host model prompt w) =
         fst (chat d host model prompt false (after_clock w))).
Proof.
  intro elapsed. split.
  - intros answer text Hchat Hcontent Hlen. split.
    + unfold benchmark_model. unfold try_except, bind at 1, time_time. unfold bind at 1.
      rewrite (chat_answered _ _ _ _ _ _ _ Hchat Hcontent).
      py_simpl. cbn -[py_truediv float_gt0 float_sub str_split round_int float_div].
      fold elapsed. unfold benchmark_result. rewrite !length_map.
      destruct (float_gt0 elapsed) eqn:Hgt; [|reflexivity].
      unfold py_truediv, as_number, int_to_float.
      assert (Hwc : 0 <= Z.of_nat (List.length (str_split text)) < 2 ^ 63).
      { pose proof (split_from_length text []) as Hs. unfold str_split.
        cbn [List.length Nat.add] in Hs. lia. }
      rewrite (round_int_finite _ Hwc). unfold float_true_divide.
      rewrite (float_gt0_nonzero _ Hgt). reflexivity.
    + intro Hz. destruct elapsed as [[|]|[|]| |[|] p e]; try discriminate; reflexivity.
  - intros e Hchat.
    assert (H : fst (benchmark_model d host model prompt w) =
                Ret (error_result (exn_msg e))).
    { unfold benchmark_model. unfold try_except, bind at 1, time_time. unfold bind at 1.
      unfold chat. py_simpl. rewrite Hchat. reflexivity. }
    split; [exact H|]. rewrite H. symmetry. now apply chat_failed.
Qed.

Lemma benchmark_model_measures_witness :
  fst (benchmark_model two_seconds default_host model_llama default_prompt fresh) =
    Ret (PDict [(u "status", PStr (u "success"));
                (u "model", PStr model_llama);
                (u "response_time", PFloat (round_int 2));
                (u "response_length", PInt 18);
                (u "word_count", PInt 4);
                (u "words_per_second", PFloat (round_int 2))])
  /\ fst (benchmark_model instant default_host model_llama default_prompt fresh) =
    Ret (PDict [(u "status", PStr (u "success"));
                (u "model", PStr model_llama);
                (u "response_time", PFloat (S754_zero false));
                (u "response_length", PInt 18);
                (u "word_count", PInt 4);
                (u "words_per_second", PInt 0)])
  /\ fst (benchmark_model (failing response_error) default_host model_llama
            default_prompt fresh) = Ret (error_result (u "model not found")).
Proof.
  split; [|split].
  - destruct (benchmark_model_measures two_seconds default_host model_llama
                default_prompt fresh) as [H _].
    destruct (H (chat_answer (PStr four_words)) four_words eq_refl eq_refl eq_refl)
      as [Hr _].
    rewrite Hr. vm_compute. reflexivity.
  - destruct (benchmark_model_measures instant default_host model_llama
                default_prompt fresh) as [H _].
    destruct (H (chat_answer (PStr four_words)) four_words eq_refl eq_refl eq_refl)
      as [Hr _].
    rewrite Hr. vm_compute. reflexivity.
  - destruct (benchmark_model_measures (failing response_error) default_host model_llama
                default_prompt fresh) as [_ H].
    destruct (H response_error eq_refl) as [Hr _]. exact Hr.
Defined.
